(** * Task-conditioned environments and the rollout sampler

    A shallow embedding of [maml_rl/envs/bandit.py],
    [maml_rl/envs/mujoco/half_cheetah.py] and [maml_rl/samplers/sampler.py].

    Conventions of the embedding.
    - Python floats are read as exact rationals ([Q]); equalities between
      computed rewards are stated up to [Qeq] ([==]).  Rounding is not
      modelled.
    - A Python method that mutates [self] and may raise is a function
      [St -> St * result A]: the state reached is returned also when an
      exception is raised, because the assignments made before the raise
      stay in place.
    - Libraries the sources call but do not define (the numpy random
      generator, the MuJoCo engine, [gym.make]) are interfaces: type classes
      or section variables, instantiated by small executable models where a
      closed computation is wanted. *)

From Stdlib Require Import QArith Qabs Lqa.
From stdpp Require Import gmap strings list.

Local Open Scope Z_scope.

(** ** Python values, exceptions, results *)

(** The values stored in a task dictionary: a number, or a sequence of
    numbers (a list or a one-dimensional array). *)
Inductive value : Type :=
  | VNum (q : Q)
  | VSeq (l : list Q).

(** A task is a Python [dict] from field names to values. *)
Abbreviation Task := (gmap string value).

Inductive exn : Type :=
  | AssertionError
  | KeyError (key : string)
  | IndexError
  | TypeError
  | ValueError
  | NotImplementedError
  | MakeError.

Inductive result (A : Type) : Type :=
  | Ok (a : A)
  | Raise (e : exn).
Arguments Ok {A} a.
Arguments Raise {A} e.

Definition is_ok {A} (r : result A) : bool :=
  match r with Ok _ => true | Raise _ => false end.

(** ** Methods: state passing with exceptions *)

Definition M (St A : Type) : Type := St -> St * result A.

Definition ret {St A} (a : A) : M St A := fun s => (s, Ok a).

Definition bind {St A B} (c : M St A) (f : A -> M St B) : M St B :=
  fun s => match c s with
           | (s', Ok a) => f a s'
           | (s', Raise e) => (s', Raise e)
           end.

Definition raise {St A} (e : exn) : M St A := fun s => (s, Raise e).

Definition get {St} : M St St := fun s => (s, Ok s).

Definition modify {St} (f : St -> St) : M St unit := fun s => (f s, Ok tt).

(** Lifts a computation that has no access to the object's state. *)
Definition lift {St A} (r : result A) : M St A := fun s => (s, r).

Definition assert {St} (b : bool) : M St unit :=
  if b then ret tt else raise AssertionError.

Notation "'do' x <- c ; k" := (bind c (fun x => k))
  (at level 10, x name, c at level 100, k at level 200).
Notation "'do' ' p <- c ; k" := (bind c (fun x => match x with p => k end))
  (at level 10, p pattern, c at level 100, k at level 200).
Notation "c ;; k" := (bind c (fun _ => k))
  (at level 100, k at level 200, right associativity).

(** ** Dictionary and sequence access *)

(** [task[key]]: raises [KeyError] on a missing key. *)
Definition dict_getitem (task : Task) (key : string) : result value :=
  match task !! key with
  | Some v => Ok v
  | None => Raise (KeyError key)
  end.

(** [task.get(key, default)]. *)
Definition dict_get (task : Task) (key : string) (default : value) : value :=
  match task !! key with
  | Some v => v
  | None => default
  end.

(** [seq[i]] on a sequence of length [n]: indices [-n .. n-1] are valid,
    a negative one counting from the end. *)
Definition seq_getitem (l : list Q) (i : Z) : result Q :=
  let n := Z.of_nat (length l) in
  let j := if i <? 0 then i + n else i in
  if (0 <=? j) && (j <? n) then
    match l !! Z.to_nat j with
    | Some x => Ok x
    | None => Raise IndexError
    end
  else Raise IndexError.

(** [v[i]]: a number cannot be indexed. *)
Definition getitem (v : value) (i : Z) : result Q :=
  match v with
  | VSeq l => seq_getitem l i
  | VNum _ => Raise TypeError
  end.

(** Use of a value where a number is required. *)
Definition as_num (v : value) : result Q :=
  match v with
  | VNum q => Ok q
  | VSeq _ => Raise TypeError
  end.

(** ** The random source *)

(** The part of numpy's generator the environments use.  [seed_rng s] is the
    generator [seeding.np_random(s)] creates from an integer seed;
    [random_sample] is one uniform draw from the half-open unit interval
    together with the advanced generator; [normal] is one draw of
    [normal(loc, scale)]. *)
Class RandomSource (rng : Type) : Type := {
  seed_rng : Z -> rng;
  random_sample : rng -> Q * rng;
  normal : rng -> Q -> Q -> Q * rng;
  random_sample_range : forall g : rng,
    (0 <= fst (random_sample g))%Q /\ (fst (random_sample g) < 1)%Q
}.

Section Random.
Context {rng : Type} `{!RandomSource rng}.

(** [n] successive uniform draws. *)
Fixpoint random_samples (g : rng) (n : nat) : list Q * rng :=
  match n with
  | O => ([], g)
  | S n' =>
      let (u, g1) := random_sample g in
      let (us, g2) := random_samples g1 n' in
      (u :: us, g2)
  end.

(** [rows] successive rows of [cols] uniform draws (row-major fill). *)
Fixpoint random_rows (g : rng) (rows cols : nat) : list (list Q) * rng :=
  match rows with
  | O => ([], g)
  | S r' =>
      let (row, g1) := random_samples g cols in
      let (rest, g2) := random_rows g1 r' cols in
      (row :: rest, g2)
  end.

(** [np_random.rand(d0, d1)]: negative dimensions are rejected. *)
Definition rand (g : rng) (d0 d1 : Z) : result (list (list Q) * rng) :=
  if (d0 <? 0) || (d1 <? 0) then Raise ValueError
  else Ok (random_rows g (Z.to_nat d0) (Z.to_nat d1)).

(** [np_random.uniform(low, high, size=(n,))]. *)
Definition uniform (g : rng) (low high : Q) (n : Z)
  : result (list Q * rng) :=
  if n <? 0 then Raise ValueError
  else
    let (us, g') := random_samples g (Z.to_nat n) in
    Ok (map (fun u => (low + (high - low) * u)%Q) us, g').

(** One Bernoulli draw by inversion of a uniform draw. *)
Definition bernoulli (p u : Q) : Z :=
  if Qle_bool p u then 0 else 1.

(** [np_random.binomial(1, p)]: [p] outside the unit interval is
    rejected. *)
Definition binomial1 (g : rng) (p : Q) : result (Z * rng) :=
  if Qle_bool 0 p && Qle_bool p 1 then
    let (u, g') := random_sample g in Ok (bernoulli p u, g')
  else Raise ValueError.

(** [np_random.normal(loc, scale)]: a negative scale is rejected. *)
Definition np_normal (g : rng) (loc scale : Q) : result (Q * rng) :=
  if Qle_bool 0 scale then Ok (normal g loc scale) else Raise ValueError.

(** [np_random.binomial(1, p, size=(n,))]. *)
Definition binomial1_n (g : rng) (p : Q) (n : Z) : result (list Z * rng) :=
  if n <? 0 then Raise ValueError
  else if Qle_bool 0 p && Qle_bool p 1 then
    let (us, g') := random_samples g (Z.to_nat n) in
    Ok (map (bernoulli p) us, g')
  else Raise ValueError.
End Random.

(** ** Bandits ([bandit.py]) *)

(** [spaces.Discrete(n).contains(x)] for an integer [x]. *)
Definition Discrete_contains (n x : Z) : bool := (0 <=? x) && (x <? n).

(** [np.full((k,), 0.5)]. *)
Definition full_half (k : Z) : list Q := replicate (Z.to_nat k) (1 # 2)%Q.

(** [np.zeros(1)]. *)
Definition zeros1 : list Q := [0%Q].

(** The [info] dictionary of a bandit step: its only key is ["task"]. *)
Record BanditInfo : Type := { info_task : Task }.

Module BernoulliBanditEnv.
Section Env.
Context {rng : Type} `{!RandomSource rng}.

Record t : Type := mk {
  k : Z;
  _task : Task;
  _means : value;
  np_random : rng
}.

(** [seed(self, seed=None)].  Without a seed the generator is created
    from operating-system entropy, here the argument [entropy]. *)
Definition seed (seed : option Z) (entropy : Z) : M t (list Z) :=
  fun self =>
    let s := default entropy seed in
    (mk (k self) (_task self) (_means self) (seed_rng s), Ok [s]).

(** [__init__(self, k, task={})]. *)
Definition __init__ (k : Z) (task : Task) (entropy : Z) : t :=
  let self := mk k task (dict_get task "mean" (VSeq (full_half k)))
                 (seed_rng entropy) in
  fst (seed None entropy self).

Definition sample_tasks (num_tasks : Z) : M t (list Task) :=
  fun self =>
    match rand (np_random self) num_tasks (k self) with
    | Ok (means, g') =>
        (mk (k self) (_task self) (_means self) g',
         Ok (map (fun mean => ({[ "mean" := VSeq mean ]} : Task)) means))
    | Raise e => (self, Raise e)
    end.

Definition set_task (task : Task) : M t unit :=
  modify (fun self => mk (k self) task (_means self) (np_random self)).

Definition set_means (means : value) : M t unit :=
  modify (fun self => mk (k self) (_task self) means (np_random self)).

Definition reset_task (task : Task) : M t unit :=
  set_task task ;;
  do means <- lift (dict_getitem task "mean");
  set_means means.

Definition reset : M t (list Q) := ret zeros1.

(** The draw [self.np_random.binomial(1, mean)] advances the generator. *)
Definition draw_reward (mean : Q) : M t Z :=
  fun self =>
    match binomial1 (np_random self) mean with
    | Ok (r, g') => (mk (k self) (_task self) (_means self) g', Ok r)
    | Raise e => (self, Raise e)
    end.

Definition step (action : Z) : M t (list Q * Z * bool * BanditInfo) :=
  do self <- get;
  assert (Discrete_contains (k self) action) ;;
  do mean <- lift (getitem (_means self) action);
  do reward <- draw_reward mean;
  let observation := zeros1 in
  ret (observation, reward, true, {| info_task := _task self |}).
End Env.
Arguments t : clear implicits.
End BernoulliBanditEnv.

Module GaussianBanditEnv.
Section Env.
Context {rng : Type} `{!RandomSource rng}.

Record t : Type := mk {
  k : Z;
  std : Q;
  _task : Task;
  _means : value;
  np_random : rng
}.

Definition seed (seed : option Z) (entropy : Z) : M t (list Z) :=
  fun self =>
    let s := default entropy seed in
    (mk (k self) (std self) (_task self) (_means self) (seed_rng s), Ok [s]).

(** [__init__(self, k, std=1.0, task={})]. *)
Definition __init__ (k : Z) (std : Q) (task : Task) (entropy : Z) : t :=
  let self := mk k std task (dict_get task "mean" (VSeq (full_half k)))
                 (seed_rng entropy) in
  fst (seed None entropy self).

Definition sample_tasks (num_tasks : Z) : M t (list Task) :=
  fun self =>
    match rand (np_random self) num_tasks (k self) with
    | Ok (means, g') =>
        (mk (k self) (std self) (_task self) (_means self) g',
         Ok (map (fun mean => ({[ "mean" := VSeq mean ]} : Task)) means))
    | Raise e => (self, Raise e)
    end.

Definition set_task (task : Task) : M t unit :=
  modify (fun self =>
            mk (k self) (std self) task (_means self) (np_random self)).

Definition set_means (means : value) : M t unit :=
  modify (fun self =>
            mk (k self) (std self) (_task self) means (np_random self)).

Definition reset_task (task : Task) : M t unit :=
  set_task task ;;
  do means <- lift (dict_getitem task "mean");
  set_means means.

Definition reset : M t (list Q) := ret zeros1.

(** The draw [self.np_random.normal(mean, self.std)] advances the
    generator; [std] is whatever the constructor was given. *)
Definition draw_reward (mean : Q) : M t Q :=
  fun self =>
    match np_normal (np_random self) mean (std self) with
    | Ok (r, g') =>
        (mk (k self) (std self) (_task self) (_means self) g', Ok r)
    | Raise e => (self, Raise e)
    end.

Definition step (action : Z) : M t (list Q * Q * bool * BanditInfo) :=
  do self <- get;
  assert (Discrete_contains (k self) action) ;;
  do mean <- lift (getitem (_means self) action);
  do reward <- draw_reward mean;
  let observation := zeros1 in
  ret (observation, reward, true, {| info_task := _task self |}).
End Env.
Arguments t : clear implicits.
End GaussianBanditEnv.

(** ** Locomotion ([half_cheetah.py]) *)

(** The part of the MuJoCo engine the environments use.  [load_model] is the
    simulator state after loading ["half_cheetah.xml"], [timestep] the
    model's [opt.timestep].  [do_simulation] may reject a control vector. *)
Class MujocoEngine (data : Type) : Type := {
  load_model : data;
  timestep : Q;
  qpos : data -> list Q;
  qvel : data -> list Q;
  get_body_com : data -> string -> list Q;
  do_simulation : data -> list Q -> Z -> result data
}.

(** [np.square] and [np.sum] on an action vector. *)
Definition np_square (a : list Q) : list Q := map (fun x => (x * x)%Q) a.
Definition np_sum (a : list Q) : Q := foldr Qplus 0%Q a.

(** The control cost as both step functions write it,
    [0.5 * 1e-1 * np.sum(np.square(action))]. *)
Definition ctrl_cost_of (action : list Q) : Q :=
  (0.5 * 1e-1 * np_sum (np_square action))%Q.

(** The [infos] dictionary of a locomotion step. *)
Record CheetahInfo : Type := {
  reward_forward : Q;
  reward_ctrl : Q;
  task : Task
}.

(** The keyword arguments [HalfCheetahEnv.__init__] names; an absent one
    takes the default of the signature. *)
Record HalfCheetahKwargs : Type := {
  forward_reward_weight : option Q;
  ctrl_cost_weight : option Q;
  reset_noise_scale : option Q
}.

Definition no_kwargs : HalfCheetahKwargs :=
  {| forward_reward_weight := None;
     ctrl_cost_weight := None;
     reset_noise_scale := None |}.

Module HalfCheetahEnv.
Section Env.
Context {rng : Type} `{!RandomSource rng}.
Context {data : Type} `{!MujocoEngine data}.

Record t : Type := mk {
  _forward_reward_weight : Q;
  _ctrl_cost_weight : Q;
  _reset_noise_scale : Q;
  frame_skip : Z;
  data_ : data;
  np_random : rng
}.

(** [__init__]: stores the three weights, then [MujocoEnv.__init__] loads
    the model with a frame skip of 5.  The generator of a fresh environment
    comes from operating-system entropy. *)
Definition __init__ (kwargs : HalfCheetahKwargs) (entropy : Z) : t :=
  mk (default 1.0%Q (forward_reward_weight kwargs))
     (default 0.1%Q (ctrl_cost_weight kwargs))
     (default 0.1%Q (reset_noise_scale kwargs))
     5
     load_model
     (seed_rng entropy).

(** [self.dt]: the model's timestep times the frame skip. *)
Definition dt (self : t) : Q := (timestep * inject_Z (frame_skip self))%Q.

Definition _get_obs (self : t) : list Q :=
  drop 1 (qpos (data_ self)) ++ qvel (data_ self)
    ++ get_body_com (data_ self) "torso".

(** [self.do_simulation(action, self.frame_skip)]: replaces the simulator
    state when the engine accepts the action. *)
Definition set_data (d' : data) (self : t) : t :=
  mk (_forward_reward_weight self) (_ctrl_cost_weight self)
     (_reset_noise_scale self) (frame_skip self) d' (np_random self).

Definition simulate (action : list Q) : M t unit :=
  fun self =>
    match do_simulation (data_ self) action (frame_skip self) with
    | Ok d' => (set_data d' self, Ok tt)
    | Raise e => (self, Raise e)
    end.

Definition set_np_random (g : rng) (self : t) : t :=
  mk (_forward_reward_weight self) (_ctrl_cost_weight self)
     (_reset_noise_scale self) (frame_skip self) (data_ self) g.
End Env.
Arguments t : clear implicits.
End HalfCheetahEnv.

(** The [task] argument of [HalfCheetahVelEnv.__init__]: a bare float or a
    dictionary. *)
Inductive task_arg : Type :=
  | TaskFloat (v : Q)
  | TaskDict (d : Task).

Module HalfCheetahVelEnv.
Section Env.
Context {rng : Type} `{!RandomSource rng}.
Context {data : Type} `{!MujocoEngine data}.

(** The subclass adds four attributes to those of [HalfCheetahEnv]. *)
Record t : Type := mk {
  super : HalfCheetahEnv.t rng data;
  low : Q;
  high : Q;
  _task : Task;
  _goal_vel : value
}.

(** Runs a method of the base class on the inherited attributes. *)
Definition on_super {A} (c : M (HalfCheetahEnv.t rng data) A) : M t A :=
  fun self =>
    let (b, r) := c (super self) in
    (mk b (low self) (high self) (_task self) (_goal_vel self), r).

(** [__init__(self, task={"velocity": 1.0}, low=0.0, high=2.0, **kwargs)]. *)
Definition __init__ (task : task_arg) (low high : Q)
    (kwargs : HalfCheetahKwargs) (entropy : Z) : t :=
  let _task : Task :=
    match task with
    | TaskFloat v => {[ "velocity" := VNum v ]}
    | TaskDict d => d
    end in
  let _goal_vel := dict_get _task "velocity" (VNum 0.0%Q) in
  mk (HalfCheetahEnv.__init__ kwargs entropy) low high _task _goal_vel.

Definition default_task : task_arg := TaskDict {[ "velocity" := VNum 1.0%Q ]}.

(** The task term of the reward, [-1.0 * abs(forward_vel - goal_vel)]. *)
Definition forward_reward_of (goal_vel forward_vel : Q) : Q :=
  (- 1.0 * Qabs (forward_vel - goal_vel))%Q.

Definition xpos : M t Q :=
  do self <- get;
  lift (seq_getitem (qpos (HalfCheetahEnv.data_ (super self))) 0).

Definition step (action : list Q)
    : M t (list Q * Q * bool * bool * CheetahInfo) :=
  do xposbefore <- xpos;
  on_super (HalfCheetahEnv.simulate action) ;;
  do xposafter <- xpos;
  do self <- get;
  let forward_vel :=
    ((xposafter - xposbefore) / HalfCheetahEnv.dt (super self))%Q in
  do goal_vel <- lift (as_num (_goal_vel self));
  let forward_reward := forward_reward_of goal_vel forward_vel in
  let ctrl_cost := ctrl_cost_of action in
  let observation := HalfCheetahEnv._get_obs (super self) in
  let reward := (forward_reward - ctrl_cost)%Q in
  let done := false in
  let truncated := false in
  let infos := {| reward_forward := forward_reward;
                  reward_ctrl := (- ctrl_cost)%Q;
                  task := _task self |} in
  ret (observation, reward, done, truncated, infos).

Definition sample_tasks (num_tasks : Z) : M t (list Task) :=
  fun self =>
    match uniform (HalfCheetahEnv.np_random (super self))
                  (low self) (high self) num_tasks with
    | Ok (velocities, g') =>
        (mk (HalfCheetahEnv.set_np_random g' (super self))
            (low self) (high self) (_task self) (_goal_vel self),
         Ok (map (fun velocity => ({[ "velocity" := VNum velocity ]} : Task))
                 velocities))
    | Raise e => (self, Raise e)
    end.

Definition set_task (task : Task) : M t unit :=
  modify (fun self =>
            mk (super self) (low self) (high self) task (_goal_vel self)).

Definition set_goal_vel (v : value) : M t unit :=
  modify (fun self =>
            mk (super self) (low self) (high self) (_task self) v).

Definition reset_task (task : Task) : M t unit :=
  set_task task ;;
  do v <- lift (dict_getitem task "velocity");
  set_goal_vel v.
End Env.
Arguments t : clear implicits.
End HalfCheetahVelEnv.

Module HalfCheetahDirEnv.
Section Env.
Context {rng : Type} `{!RandomSource rng}.
Context {data : Type} `{!MujocoEngine data}.

Record t : Type := mk {
  super : HalfCheetahEnv.t rng data;
  _task : Task;
  _goal_dir : value
}.

Definition on_super {A} (c : M (HalfCheetahEnv.t rng data) A) : M t A :=
  fun self =>
    let (b, r) := c (super self) in
    (mk b (_task self) (_goal_dir self), r).

(** [__init__(self, task={})]: the base class is initialised with no
    keyword argument, hence with its default weights. *)
Definition __init__ (task : Task) (entropy : Z) : t :=
  mk (HalfCheetahEnv.__init__ no_kwargs entropy)
     task
     (dict_get task "direction" (VNum 1%Q)).

(** The task term of the reward, [goal_dir * forward_vel]. *)
Definition forward_reward_of (goal_dir forward_vel : Q) : Q :=
  (goal_dir * forward_vel)%Q.

Definition xpos : M t Q :=
  do self <- get;
  lift (seq_getitem (qpos (HalfCheetahEnv.data_ (super self))) 0).

Definition step (action : list Q)
    : M t (list Q * Q * bool * bool * CheetahInfo) :=
  do xposbefore <- xpos;
  on_super (HalfCheetahEnv.simulate action) ;;
  do xposafter <- xpos;
  do self <- get;
  let forward_vel :=
    ((xposafter - xposbefore) / HalfCheetahEnv.dt (super self))%Q in
  do goal_dir <- lift (as_num (_goal_dir self));
  let forward_reward := forward_reward_of goal_dir forward_vel in
  let ctrl_cost := ctrl_cost_of action in
  let observation := HalfCheetahEnv._get_obs (super self) in
  let reward := (forward_reward - ctrl_cost)%Q in
  let done := false in
  let truncated := false in
  let infos := {| reward_forward := forward_reward;
                  reward_ctrl := (- ctrl_cost)%Q;
                  task := _task self |} in
  ret (observation, reward, done, truncated, infos).

(** [2 * binomial(1, p=0.5, size=(num_tasks,)) - 1]. *)
Definition sample_tasks (num_tasks : Z) : M t (list Task) :=
  fun self =>
    match binomial1_n (HalfCheetahEnv.np_random (super self))
                      0.5%Q num_tasks with
    | Ok (draws, g') =>
        let directions := map (fun b => 2 * b - 1) draws in
        (mk (HalfCheetahEnv.set_np_random g' (super self))
            (_task self) (_goal_dir self),
         Ok (map (fun direction =>
                    ({[ "direction" := VNum (inject_Z direction) ]} : Task))
                 directions))
    | Raise e => (self, Raise e)
    end.

Definition set_task (task : Task) : M t unit :=
  modify (fun self => mk (super self) task (_goal_dir self)).

Definition set_goal_dir (v : value) : M t unit :=
  modify (fun self => mk (super self) (_task self) v).

Definition reset_task (task : Task) : M t unit :=
  set_task task ;;
  do v <- lift (dict_getitem task "direction");
  set_goal_dir v.
End Env.
Arguments t : clear implicits.
End HalfCheetahDirEnv.

(** ** The sampler ([sampler.py]) *)

(** An environment object as the sampler sees it: whether it has a [seed]
    attribute, what a call [reset(seed=...)] on it does (the exception it
    raises, or [None] when it returns), and the calls completed on it so
    far, oldest first.  A call that raises is not recorded. *)
Inductive env_call : Type :=
  | CallReset (seed : option Z)
  | CallClose.

Record GymEnv : Type := mkGymEnv {
  has_seed_attr : bool;
  reset_seed_raises : option exn;
  env_calls : list env_call
}.

(** [env.reset(seed=seed)]. *)
Definition env_reset (seed : option Z) : M GymEnv unit :=
  fun env =>
    match reset_seed_raises env with
    | Some e => (env, Raise e)
    | None =>
        (mkGymEnv (has_seed_attr env) (reset_seed_raises env)
                  (env_calls env ++ [CallReset seed]),
         Ok tt)
    end.

(** [env.close()]. *)
Definition env_close : M GymEnv unit :=
  modify (fun env =>
            mkGymEnv (has_seed_attr env) (reset_seed_raises env)
                     (env_calls env ++ [CallClose])).

Module Sampler.
Section Sampler.
(** The policy is opaque; [gym_make] is [gym.make], which may fail; [R] is
    what a sampling call returns. *)
Variable Policy : Type.
Variable R : Type.
Variable gym_make : string -> Task -> result GymEnv.

Record t : Type := mk {
  env_name : string;
  env_kwargs : Task;
  batch_size : Z;
  policy : Policy;
  seed : option Z;
  env : GymEnv;
  closed : bool
}.

(** The two calls [__init__] makes on the environment: the reset under the
    guard [hasattr(self.env, "seed")], then the close. *)
Definition seed_then_close (seed : option Z) : M GymEnv unit :=
  do env <- get;
  (if has_seed_attr env then env_reset seed else ret tt) ;;
  env_close.

(** [__init__(self, env_name, env_kwargs, batch_size, policy, seed=None,
    env=None)].  The environment is the one the caller passed, when there is
    one, and else the one [gym.make] returns.  Next to the sampler, or the
    exception, the result holds the environment the construction worked on
    in the state it was left in ([None] when [gym.make] failed). *)
Definition __init__ (env_name : string) (env_kwargs : Task) (batch_size : Z)
    (policy : Policy) (seed : option Z) (env : option GymEnv)
  : option GymEnv * result t :=
  match (match env with
         | None => gym_make env_name env_kwargs
         | Some e => Ok e
         end) with
  | Raise e => (None, Raise e)
  | Ok env =>
      match seed_then_close seed env with
      | (env, Ok _) =>
          (Some env,
           Ok (mk env_name env_kwargs batch_size policy seed env false))
      | (env, Raise e) => (Some env, Raise e)
      end
  end.

(** The class of a sampler object fixes which [sample_async] a call on it
    reaches: the base class's, or the override of a subclass. *)
Record class : Type := {
  sample_async : list value -> Task -> M t R
}.

Definition base_sample_async (args : list value) (kwargs : Task) : M t R :=
  raise NotImplementedError.

Definition base : class := {| sample_async := base_sample_async |}.

(** [sample] is inherited by every subclass; [self.sample_async] is looked up
    in the class of [self]. *)
Definition sample (cls : class) (args : list value) (kwargs : Task) : M t R :=
  sample_async cls args kwargs.
End Sampler.
End Sampler.

(** [make_env]: a callable that remembers its arguments and builds the
    environment when called; it does not seed it. *)
Module make_env.
Section MakeEnv.
Variable gym_make : string -> Task -> result GymEnv.

Record t : Type := mk {
  env_name : string;
  env_kwargs : Task;
  seed : option Z
}.

Definition __init__ (env_name : string) (env_kwargs : Task) (seed : option Z)
  : t := mk env_name env_kwargs seed.

Definition __call__ (self : t) : result GymEnv :=
  gym_make (env_name self) (env_kwargs self).
End MakeEnv.
End make_env.

(** * Executable models of the interfaces *)

(** A linear congruential generator as random source: the state is an
    integer below [2^31], a uniform draw is the next state over [2^31]. *)
Module Lcg.
Definition modulus : positive := 2147483648%positive.

Definition next (g : Z) : Z := (1103515245 * g + 12345) mod Z.pos modulus.

Definition sample (g : Z) : Q * Z := (next g # modulus, next g).

(** A stand-in for the normal draw: the location shifted by a centred
    uniform draw scaled by [scale]. *)
Definition normal_draw (g : Z) (loc scale : Q) : Q * Z :=
  ((loc + scale * ((next g # modulus) - 0.5))%Q, next g).

Lemma sample_range (g : Z) :
  (0 <= fst (sample g))%Q /\ (fst (sample g) < 1)%Q.
Proof.
  pose proof (Z.mod_pos_bound (1103515245 * g + 12345) (Z.pos modulus)
                ltac:(reflexivity)) as Hb.
  unfold sample, Qle, Qlt; cbn [fst Qnum Qden]; fold (next g) in Hb.
  split; lia.
Qed.

#[global] Instance source : RandomSource Z := {|
  seed_rng := fun s => s mod Z.pos modulus;
  random_sample := sample;
  normal := normal_draw;
  random_sample_range := sample_range
|}.
End Lcg.

(** A kinematic stand-in for the engine: nine position and nine velocity
    coordinates, six controls; one frame moves the root by the first control
    times the timestep. *)
Module Kinematic.
Record data : Type := mk { q_pos : list Q; q_vel : list Q }.

Definition dt1 : Q := 0.01%Q.

Definition advance (d : data) (ctrl : list Q) (n_frames : Z) : data :=
  match q_pos d, ctrl with
  | x :: rest, u :: _ =>
      mk ((x + inject_Z n_frames * dt1 * u)%Q :: rest) (u :: drop 1 (q_vel d))
  | _, _ => d
  end.

Definition simulate (d : data) (ctrl : list Q) (n_frames : Z) : result data :=
  if (length ctrl =? 6)%nat then Ok (advance d ctrl n_frames)
  else Raise ValueError.

#[global] Instance engine : MujocoEngine data := {|
  load_model := mk (replicate 9 0%Q) (replicate 9 0%Q);
  timestep := dt1;
  qpos := q_pos;
  qvel := q_vel;
  get_body_com := fun d _ => [hd 0%Q (q_pos d); 0%Q; 0%Q];
  do_simulation := simulate
|}.
End Kinematic.

(** * Concrete environments

    Environments on the executable models, used where a property is
    evaluated on an input. *)

(** A two-armed bandit on the congruential generator, before any task is
    assigned. *)
Definition two_armed : BernoulliBanditEnv.t Z :=
  BernoulliBanditEnv.__init__ 2 ∅ 42.

Definition certain_task : Task := {[ "mean" := VSeq [1.0; 0.0]%Q ]}.

Definition short_task : Task := {[ "mean" := VSeq [0.3]%Q ]}.

Definition biased : Task := {[ "mean" := VSeq [0.2; 0.8]%Q ]}.

(** A two-armed bandit constructed with the task [biased]. *)
Definition biased_bandit : BernoulliBanditEnv.t Z :=
  BernoulliBanditEnv.__init__ 2 biased 42.

Definition plain_gaussian : GaussianBanditEnv.t Z :=
  GaussianBanditEnv.__init__ 3 1.0 ∅ 5.

Definition biased_gaussian : GaussianBanditEnv.t Z :=
  GaussianBanditEnv.__init__ 3 0.5 biased 5.

(** Velocity environments on the kinematic engine: the default task, and a
    bare float as task. *)
Definition cheetah_vel : HalfCheetahVelEnv.t Z Kinematic.data :=
  HalfCheetahVelEnv.__init__ HalfCheetahVelEnv.default_task 0.0 2.0
    no_kwargs 11.

Definition cheetah_vel_float : HalfCheetahVelEnv.t Z Kinematic.data :=
  HalfCheetahVelEnv.__init__ (TaskFloat 1.5) 0.0 2.0 no_kwargs 11.

Definition cheetah_dir : HalfCheetahDirEnv.t Z Kinematic.data :=
  HalfCheetahDirEnv.__init__ ∅ 13.

Definition cheetah_back : HalfCheetahDirEnv.t Z Kinematic.data :=
  HalfCheetahDirEnv.__init__ {[ "direction" := VNum (-1) ]} 13.

(** A unit torque on the first of the six controls. *)
Definition unit_action : list Q := [1; 0; 0; 0; 0; 0]%Q.

(** The engine state one step of [unit_action] leads to from the loaded
    model, and the root position in it. *)
Definition after_unit_action : Kinematic.data :=
  Kinematic.advance load_model unit_action 5.

Definition root_after_unit_action : Q :=
  (0 + inject_Z 5 * Kinematic.dt1 * 1)%Q.

Definition heavy_ctrl : HalfCheetahKwargs :=
  {| forward_reward_weight := None;
     ctrl_cost_weight := Some 0.5%Q;
     reset_noise_scale := None |}.

(** A velocity environment constructed with [ctrl_cost_weight=0.5]. *)
Definition cheetah_heavy_ctrl : HalfCheetahVelEnv.t Z Kinematic.data :=
  HalfCheetahVelEnv.__init__ HalfCheetahVelEnv.default_task 0.0 2.0
    heavy_ctrl 11.

(** Three environment objects, no call made on them yet: one without a
    [seed] attribute, one with it whose [reset] takes the [seed] keyword,
    and a bandit of [bandit.py], which has the method [seed] and whose
    [reset(self)] takes no keyword, so that [reset(seed=...)] raises
    [TypeError]. *)
Definition unseedable : GymEnv := mkGymEnv false None [].

Definition seedable : GymEnv := mkGymEnv true None [].

Definition bandit_object : GymEnv := mkGymEnv true (Some TypeError) [].

(** A registry for [gym.make] that knows the three. *)
Definition registry (env_name : string) (env_kwargs : Task) : result GymEnv :=
  if String.eqb env_name "HalfCheetahVel-v2" then Ok unseedable
  else if String.eqb env_name "Bandit-K5-v0" then Ok bandit_object
  else if String.eqb env_name "Seedable-v0" then Ok seedable
  else Raise MakeError.

(** Two tasks sampled from [two_armed], and the second of them. *)
Definition two_armed_samples : list Task :=
  match snd (BernoulliBanditEnv.sample_tasks 2 two_armed) with
  | Ok tasks => tasks
  | Raise _ => []
  end.

Definition second_sample : Task := default ∅ (two_armed_samples !! 1%nat).

(** A velocity task and a direction task. *)
Definition fast : Task := {[ "velocity" := VNum 1.5%Q ]}.

Definition backward : Task := {[ "direction" := VNum (-1)%Q ]}.

(** Three tasks sampled from [cheetah_vel] and from [cheetah_dir], and the
    first of each. *)
Definition cheetah_vel_samples : list Task :=
  match snd (HalfCheetahVelEnv.sample_tasks 3 cheetah_vel) with
  | Ok tasks => tasks
  | Raise _ => []
  end.

Definition cheetah_dir_samples : list Task :=
  match snd (HalfCheetahDirEnv.sample_tasks 3 cheetah_dir) with
  | Ok tasks => tasks
  | Raise _ => []
  end.

Definition first_vel_sample : Task := default ∅ (cheetah_vel_samples !! 0%nat).

Definition first_dir_sample : Task := default ∅ (cheetah_dir_samples !! 0%nat).

(** The shape [(20,)] of the observation space [HalfCheetahEnv.__init__]
    declares. *)
Definition observation_shape : nat := 20.

(** A Gaussian bandit constructed with a negative [std]. *)
Definition negative_gaussian : GaussianBanditEnv.t Z :=
  GaussianBanditEnv.__init__ 3 (-1)%Q ∅ 5.

(** * Predicates of the properties *)

(** A probability drawn by [random_sample]. *)
Definition in_unit (p : Q) : Prop := (0 <= p)%Q /\ (p < 1)%Q.

(** A bandit task as [sample_tasks] builds it: the one key ["mean"], bound
    to [k] probabilities. *)
Definition bandit_task_of (k : Z) (t : Task) : Prop :=
  exists m : list Q,
    t = {[ "mean" := VSeq m ]}
    /\ length m = Z.to_nat k
    /\ Forall in_unit m.

(** A velocity task as [sample_tasks] builds it: the one key ["velocity"],
    bound to a number between the bounds, below the upper one when the
    bounds differ. *)
Definition velocity_task_in (low high : Q) (t : Task) : Prop :=
  exists v : Q,
    t = {[ "velocity" := VNum v ]}
    /\ (low <= v)%Q /\ (v <= high)%Q /\ ((low < high)%Q -> (v < high)%Q).

(** A direction task as [sample_tasks] builds it: the one key
    ["direction"], bound to -1 or to 1. *)
Definition direction_task (t : Task) : Prop :=
  t = {[ "direction" := VNum (inject_Z (-1)) ]}
  \/ t = {[ "direction" := VNum (inject_Z 1) ]}.

(** * Properties *)

(** Unfolds the plumbing of a method body. *)
Ltac run :=
  cbv beta iota delta
    [bind ret raise get modify lift assert fst snd].

Lemma seq_getitem_lookup (l : list Q) (i : nat) (x : Q) :
  l !! i = Some x -> seq_getitem l (Z.of_nat i) = Ok x.
Proof.
  intros Hl. pose proof (lookup_lt_Some _ _ _ Hl) as Hlt.
  unfold seq_getitem.
  destruct (Z.ltb_spec (Z.of_nat i) 0) as [?|_]; [lia|].
  destruct (Z.leb_spec 0 (Z.of_nat i)) as [_|?]; [|lia].
  destruct (Z.ltb_spec (Z.of_nat i) (Z.of_nat (length l))) as [_|?]; [|lia].
  cbn [andb]. rewrite Nat2Z.id, Hl. reflexivity.
Qed.

Lemma seq_getitem_out_of_range (l : list Q) (i : Z) :
  Z.of_nat (length l) <= i -> seq_getitem l i = Raise IndexError.
Proof.
  intros Hi. unfold seq_getitem.
  destruct (Z.ltb_spec i 0) as [?|_]; [lia|].
  destruct (Z.ltb_spec i (Z.of_nat (length l))) as [?|_]; [lia|].
  rewrite andb_false_r. reflexivity.
Qed.

Section BernoulliFacts.
Context {rng : Type} `{!RandomSource rng}.
Import BernoulliBanditEnv.

Lemma bernoulli_one (u : Q) : (u < 1)%Q -> bernoulli 1.0 u = 1.
Proof.
  intros Hu. unfold bernoulli.
  destruct (Qle_bool 1.0 u) eqn:E; [|reflexivity].
  apply Qle_bool_iff in E. lra.
Qed.

Lemma bernoulli_zero (u : Q) : (0 <= u)%Q -> bernoulli 0.0 u = 0.
Proof.
  intros Hu. unfold bernoulli.
  destruct (Qle_bool 0.0 u) eqn:E; [reflexivity|].
  assert (Qle_bool 0.0 u = true) as E' by (apply Qle_bool_iff; lra).
  congruence.
Qed.

(** What [reset_task] does, in full: the task is stored first, the lookup
    of ["mean"] comes second. *)
Lemma bernoulli_reset_task_spec (self : t rng) (task : Task) :
  reset_task task self =
    match task !! "mean" with
    | Some v => (mk (k self) task v (np_random self), Ok tt)
    | None =>
        (mk (k self) task (_means self) (np_random self),
         Raise (KeyError "mean"))
    end.
Proof.
  unfold reset_task, set_task, set_means, dict_getitem. run.
  destruct (task !! "mean"); reflexivity.
Qed.

(** A step on an arm whose mean is in the sequence and in the unit
    interval: one draw, the generator advanced by it. *)
Lemma bernoulli_step_spec (self : t rng) (action : Z) (l : list Q) (p : Q) :
  Discrete_contains (k self) action = true ->
  _means self = VSeq l ->
  seq_getitem l action = Ok p ->
  Qle_bool 0 p && Qle_bool p 1 = true ->
  step action self =
    (mk (k self) (_task self) (_means self)
        (snd (random_sample (np_random self))),
     Ok (zeros1, bernoulli p (fst (random_sample (np_random self))), true,
         {| info_task := _task self |})).
Proof.
  intros Hc Hm Hg Hp. unfold step, draw_reward, binomial1. run.
  rewrite Hc, Hm. cbn [getitem]. rewrite Hg, Hp.
  destruct (random_sample (np_random self)) as [u g']. reflexivity.
Qed.
End BernoulliFacts.

Section BanditDeterminism.
Context {rng : Type} `{!RandomSource rng}.

(** The tasks a Bernoulli bandit samples, and the generator it is left
    with, are a function of its generator, its number of arms and the
    number of tasks asked for. *)
Lemma bernoulli_sample_tasks_congr (e1 e2 : BernoulliBanditEnv.t rng) (n : Z) :
  BernoulliBanditEnv.k e1 = BernoulliBanditEnv.k e2 ->
  BernoulliBanditEnv.np_random e1 = BernoulliBanditEnv.np_random e2 ->
  snd (BernoulliBanditEnv.sample_tasks n e1)
    = snd (BernoulliBanditEnv.sample_tasks n e2)
  /\ BernoulliBanditEnv.np_random (fst (BernoulliBanditEnv.sample_tasks n e1))
    = BernoulliBanditEnv.np_random (fst (BernoulliBanditEnv.sample_tasks n e2)).
Proof.
  intros Hk Hg. unfold BernoulliBanditEnv.sample_tasks. rewrite Hk, Hg.
  destruct (rand _ n _) as [[means g']|e]; split; cbn; congruence.
Qed.

Lemma gaussian_sample_tasks_congr (e1 e2 : GaussianBanditEnv.t rng) (n : Z) :
  GaussianBanditEnv.k e1 = GaussianBanditEnv.k e2 ->
  GaussianBanditEnv.np_random e1 = GaussianBanditEnv.np_random e2 ->
  snd (GaussianBanditEnv.sample_tasks n e1)
    = snd (GaussianBanditEnv.sample_tasks n e2)
  /\ GaussianBanditEnv.np_random (fst (GaussianBanditEnv.sample_tasks n e1))
    = GaussianBanditEnv.np_random (fst (GaussianBanditEnv.sample_tasks n e2)).
Proof.
  intros Hk Hg. unfold GaussianBanditEnv.sample_tasks. rewrite Hk, Hg.
  destruct (rand _ n _) as [[means g']|e]; split; cbn; congruence.
Qed.

Lemma gaussian_reset_task_spec (self : GaussianBanditEnv.t rng) (task : Task) :
  GaussianBanditEnv.reset_task task self =
    match task !! "mean" with
    | Some v =>
        (GaussianBanditEnv.mk (GaussianBanditEnv.k self)
           (GaussianBanditEnv.std self) task v
           (GaussianBanditEnv.np_random self), Ok tt)
    | None =>
        (GaussianBanditEnv.mk (GaussianBanditEnv.k self)
           (GaussianBanditEnv.std self) task (GaussianBanditEnv._means self)
           (GaussianBanditEnv.np_random self), Raise (KeyError "mean"))
    end.
Proof.
  unfold GaussianBanditEnv.reset_task, GaussianBanditEnv.set_task,
    GaussianBanditEnv.set_means, dict_getitem. run.
  destruct (task !! "mean"); reflexivity.
Qed.
End BanditDeterminism.

Section LocomotionFacts.
Context {rng : Type} `{!RandomSource rng}.
Context {data : Type} `{!MujocoEngine data}.

Lemma vel_step_spec (self : HalfCheetahVelEnv.t rng data) (action : list Q)
    (x0 x1 goal : Q) (d' : data) :
  let b := HalfCheetahVelEnv.super self in
  qpos (HalfCheetahEnv.data_ b) !! 0%nat = Some x0 ->
  do_simulation (HalfCheetahEnv.data_ b) action (HalfCheetahEnv.frame_skip b)
    = Ok d' ->
  qpos d' !! 0%nat = Some x1 ->
  HalfCheetahVelEnv._goal_vel self = VNum goal ->
  let forward_reward :=
    HalfCheetahVelEnv.forward_reward_of goal
      ((x1 - x0) / HalfCheetahEnv.dt b)%Q in
  HalfCheetahVelEnv.step action self =
    (HalfCheetahVelEnv.mk (HalfCheetahEnv.set_data d' b) (HalfCheetahVelEnv.low self)
       (HalfCheetahVelEnv.high self) (HalfCheetahVelEnv._task self)
       (HalfCheetahVelEnv._goal_vel self),
     Ok (HalfCheetahEnv._get_obs (HalfCheetahEnv.set_data d' b),
         (forward_reward - ctrl_cost_of action)%Q, false, false,
         {| reward_forward := forward_reward;
            reward_ctrl := (- ctrl_cost_of action)%Q;
            task := HalfCheetahVelEnv._task self |})).
Proof.
  intros b H0 Hsim H1 Hgoal fr. subst b fr.
  apply (seq_getitem_lookup _ 0%nat) in H0, H1.
  unfold HalfCheetahVelEnv.step, HalfCheetahVelEnv.xpos,
    HalfCheetahVelEnv.on_super, HalfCheetahEnv.simulate. run.
  change (Z.of_nat 0) with 0 in H0, H1.
  rewrite H0, Hsim.
  cbn [HalfCheetahVelEnv.super HalfCheetahEnv.data_ HalfCheetahEnv.set_data].
  rewrite H1. cbn [HalfCheetahVelEnv._goal_vel]. rewrite Hgoal.
  reflexivity.
Qed.

Lemma dir_step_spec (self : HalfCheetahDirEnv.t rng data) (action : list Q)
    (x0 x1 goal : Q) (d' : data) :
  let b := HalfCheetahDirEnv.super self in
  qpos (HalfCheetahEnv.data_ b) !! 0%nat = Some x0 ->
  do_simulation (HalfCheetahEnv.data_ b) action (HalfCheetahEnv.frame_skip b)
    = Ok d' ->
  qpos d' !! 0%nat = Some x1 ->
  HalfCheetahDirEnv._goal_dir self = VNum goal ->
  let forward_reward :=
    HalfCheetahDirEnv.forward_reward_of goal
      ((x1 - x0) / HalfCheetahEnv.dt b)%Q in
  HalfCheetahDirEnv.step action self =
    (HalfCheetahDirEnv.mk (HalfCheetahEnv.set_data d' b) (HalfCheetahDirEnv._task self)
       (HalfCheetahDirEnv._goal_dir self),
     Ok (HalfCheetahEnv._get_obs (HalfCheetahEnv.set_data d' b),
         (forward_reward - ctrl_cost_of action)%Q, false, false,
         {| reward_forward := forward_reward;
            reward_ctrl := (- ctrl_cost_of action)%Q;
            task := HalfCheetahDirEnv._task self |})).
Proof.
  intros b H0 Hsim H1 Hgoal fr. subst b fr.
  apply (seq_getitem_lookup _ 0%nat) in H0, H1.
  unfold HalfCheetahDirEnv.step, HalfCheetahDirEnv.xpos,
    HalfCheetahDirEnv.on_super, HalfCheetahEnv.simulate. run.
  change (Z.of_nat 0) with 0 in H0, H1.
  rewrite H0, Hsim.
  cbn [HalfCheetahDirEnv.super HalfCheetahEnv.data_ HalfCheetahEnv.set_data].
  rewrite H1. cbn [HalfCheetahDirEnv._goal_dir]. rewrite Hgoal.
  reflexivity.
Qed.
End LocomotionFacts.

Section LocomotionTasks.
Context {rng : Type} `{!RandomSource rng}.
Context {data : Type} `{!MujocoEngine data}.

Lemma vel_reset_task_spec (self : HalfCheetahVelEnv.t rng data) (task : Task) :
  HalfCheetahVelEnv.reset_task task self =
    match task !! "velocity" with
    | Some v =>
        (HalfCheetahVelEnv.mk (HalfCheetahVelEnv.super self)
           (HalfCheetahVelEnv.low self) (HalfCheetahVelEnv.high self) task v,
         Ok tt)
    | None =>
        (HalfCheetahVelEnv.mk (HalfCheetahVelEnv.super self)
           (HalfCheetahVelEnv.low self) (HalfCheetahVelEnv.high self) task
           (HalfCheetahVelEnv._goal_vel self),
         Raise (KeyError "velocity"))
    end.
Proof.
  unfold HalfCheetahVelEnv.reset_task, HalfCheetahVelEnv.set_task,
    HalfCheetahVelEnv.set_goal_vel, dict_getitem. run.
  destruct (task !! "velocity"); reflexivity.
Qed.

Lemma dir_reset_task_spec (self : HalfCheetahDirEnv.t rng data) (task : Task) :
  HalfCheetahDirEnv.reset_task task self =
    match task !! "direction" with
    | Some v =>
        (HalfCheetahDirEnv.mk (HalfCheetahDirEnv.super self) task v, Ok tt)
    | None =>
        (HalfCheetahDirEnv.mk (HalfCheetahDirEnv.super self) task
           (HalfCheetahDirEnv._goal_dir self),
         Raise (KeyError "direction"))
    end.
Proof.
  unfold HalfCheetahDirEnv.reset_task, HalfCheetahDirEnv.set_task,
    HalfCheetahDirEnv.set_goal_dir, dict_getitem. run.
  destruct (task !! "direction"); reflexivity.
Qed.

Lemma vel_sample_tasks_congr (e1 e2 : HalfCheetahVelEnv.t rng data) (n : Z) :
  HalfCheetahVelEnv.low e1 = HalfCheetahVelEnv.low e2 ->
  HalfCheetahVelEnv.high e1 = HalfCheetahVelEnv.high e2 ->
  HalfCheetahEnv.np_random (HalfCheetahVelEnv.super e1)
    = HalfCheetahEnv.np_random (HalfCheetahVelEnv.super e2) ->
  snd (HalfCheetahVelEnv.sample_tasks n e1)
    = snd (HalfCheetahVelEnv.sample_tasks n e2)
  /\ HalfCheetahEnv.np_random
       (HalfCheetahVelEnv.super (fst (HalfCheetahVelEnv.sample_tasks n e1)))
     = HalfCheetahEnv.np_random
         (HalfCheetahVelEnv.super (fst (HalfCheetahVelEnv.sample_tasks n e2))).
Proof.
  intros Hl Hh Hg. unfold HalfCheetahVelEnv.sample_tasks.
  rewrite Hl, Hh, Hg.
  destruct (uniform _ _ _ n) as [[vs g']|e]; split; cbn; congruence.
Qed.

Lemma dir_sample_tasks_congr (e1 e2 : HalfCheetahDirEnv.t rng data) (n : Z) :
  HalfCheetahEnv.np_random (HalfCheetahDirEnv.super e1)
    = HalfCheetahEnv.np_random (HalfCheetahDirEnv.super e2) ->
  snd (HalfCheetahDirEnv.sample_tasks n e1)
    = snd (HalfCheetahDirEnv.sample_tasks n e2)
  /\ HalfCheetahEnv.np_random
       (HalfCheetahDirEnv.super (fst (HalfCheetahDirEnv.sample_tasks n e1)))
     = HalfCheetahEnv.np_random
         (HalfCheetahDirEnv.super (fst (HalfCheetahDirEnv.sample_tasks n e2))).
Proof.
  intros Hg. unfold HalfCheetahDirEnv.sample_tasks. rewrite Hg.
  destruct (binomial1_n _ _ n) as [[bs g']|e]; split; cbn; congruence.
Qed.

(** Whatever a velocity step returns carries the two constant flags. *)
Lemma vel_step_flags (self self' : HalfCheetahVelEnv.t rng data)
    (action obs : list Q) (r : Q) (done truncated : bool) (info : CheetahInfo) :
  HalfCheetahVelEnv.step action self
    = (self', Ok (obs, r, done, truncated, info)) ->
  done = false /\ truncated = false.
Proof.
  unfold HalfCheetahVelEnv.step, HalfCheetahVelEnv.xpos,
    HalfCheetahVelEnv.on_super, HalfCheetahEnv.simulate. run.
  destruct (seq_getitem _ 0); [|discriminate].
  destruct (do_simulation _ _ _); [|discriminate].
  destruct (seq_getitem _ 0); [|discriminate].
  destruct (as_num _); [|discriminate].
  intros [= _ _ _ <- <- _]. split; reflexivity.
Qed.

Lemma dir_step_flags (self self' : HalfCheetahDirEnv.t rng data)
    (action obs : list Q) (r : Q) (done truncated : bool) (info : CheetahInfo) :
  HalfCheetahDirEnv.step action self
    = (self', Ok (obs, r, done, truncated, info)) ->
  done = false /\ truncated = false.
Proof.
  unfold HalfCheetahDirEnv.step, HalfCheetahDirEnv.xpos,
    HalfCheetahDirEnv.on_super, HalfCheetahEnv.simulate. run.
  destruct (seq_getitem _ 0); [|discriminate].
  destruct (do_simulation _ _ _); [|discriminate].
  destruct (seq_getitem _ 0); [|discriminate].
  destruct (as_num _); [|discriminate].
  intros [= _ _ _ <- <- _]. split; reflexivity.
Qed.
End LocomotionTasks.

Section BernoulliClaims.
Context {rng : Type} `{!RandomSource rng}.
Import BernoulliBanditEnv.

(** C6.  A Bernoulli bandit with at least two arms is given a task whose
    mean is [[1.0, 0.0]].  Whatever the state of its random source, pulling
    arm 0 returns reward 1 and pulling arm 1 returns reward 0, both with
    [done = True], the one-dimensional zero observation and the task in the
    info dictionary. *)
Theorem bernoulli_certain_arms (env : t rng) (task : Task) :
  2 <= k env ->
  task !! "mean" = Some (VSeq [1.0; 0.0]%Q) ->
  let self := fst (reset_task task env) in
  (exists self',
     step 0 self = (self', Ok ([0%Q], 1, true, {| info_task := task |})))
  /\ (exists self',
     step 1 self = (self', Ok ([0%Q], 0, true, {| info_task := task |}))).
Proof.
  intros Hk Hmean self. subst self.
  rewrite bernoulli_reset_task_spec, Hmean. cbn [fst].
  destruct (random_sample_range (np_random env)) as [Hlo Hhi].
  split; eexists.
  - rewrite (bernoulli_step_spec _ 0 [1.0; 0.0]%Q 1.0%Q); cbn [k _means _task np_random];
      try reflexivity.
    + rewrite bernoulli_one by exact Hhi. reflexivity.
    + unfold Discrete_contains.
      destruct (Z.ltb_spec 0 (k env)); [reflexivity | lia].
  - rewrite (bernoulli_step_spec _ 1 [1.0; 0.0]%Q 0.0%Q); cbn [k _means _task np_random];
      try reflexivity.
    + rewrite bernoulli_zero by exact Hlo. reflexivity.
    + unfold Discrete_contains.
      destruct (Z.ltb_spec 1 (k env)); [reflexivity | lia].
Qed.

(** C10.  [reset_task] accepts a task whose mean sequence is shorter than
    the number of arms and leaves the number of arms as it was.  An action
    between the length of the sequence and the number of arms then passes
    the membership test of the action space, and the step fails on the
    index into the sequence: an [IndexError], not the [AssertionError] of an
    invalid action. *)
Theorem short_mean_index_error (env : t rng) (task : Task) (l : list Q)
    (action : Z) :
  task !! "mean" = Some (VSeq l) ->
  Z.of_nat (length l) < k env ->
  Z.of_nat (length l) <= action < k env ->
  let self := fst (reset_task task env) in
  reset_task task env = (self, Ok tt)
  /\ k self = k env
  /\ _means self = VSeq l
  /\ Discrete_contains (k self) action = true
  /\ step action self = (self, Raise IndexError)
  /\ IndexError <> AssertionError.
Proof.
  intros Hmean Hshort Hact self. subst self.
  rewrite bernoulli_reset_task_spec, Hmean. cbn [fst k _means].
  assert (Discrete_contains (k env) action = true) as Hc.
  { unfold Discrete_contains.
    destruct (Z.leb_spec 0 action); [|lia].
    destruct (Z.ltb_spec action (k env)); [reflexivity|lia]. }
  repeat split; try assumption; try discriminate.
  unfold step. run. cbn [k _means]. rewrite Hc. cbn [getitem].
  rewrite seq_getitem_out_of_range by lia. reflexivity.
Qed.
End BernoulliClaims.

Lemma bernoulli_certain_arms_witness :
  2 <= BernoulliBanditEnv.k two_armed
  /\ certain_task !! "mean" = Some (VSeq [1.0; 0.0]%Q)
  /\ (let self := fst (BernoulliBanditEnv.reset_task certain_task two_armed) in
      (exists self',
         BernoulliBanditEnv.step 0 self =
           (self', Ok ([0%Q], 1, true, {| info_task := certain_task |})))
      /\ (exists self',
         BernoulliBanditEnv.step 1 self =
           (self', Ok ([0%Q], 0, true, {| info_task := certain_task |})))).
Proof.
  assert (2 <= BernoulliBanditEnv.k two_armed) as Hk by (vm_compute; discriminate).
  assert (certain_task !! "mean" = Some (VSeq [1.0; 0.0]%Q)) as Hm
    by reflexivity.
  exact (conj Hk (conj Hm (bernoulli_certain_arms two_armed certain_task Hk Hm))).
Defined.

Lemma short_mean_index_error_witness :
  short_task !! "mean" = Some (VSeq [0.3]%Q)
  /\ Z.of_nat (length [0.3]%Q) < BernoulliBanditEnv.k two_armed
  /\ Z.of_nat (length [0.3]%Q) <= 1 < BernoulliBanditEnv.k two_armed
  /\ (let self := fst (BernoulliBanditEnv.reset_task short_task two_armed) in
      BernoulliBanditEnv.reset_task short_task two_armed = (self, Ok tt)
      /\ BernoulliBanditEnv.k self = BernoulliBanditEnv.k two_armed
      /\ BernoulliBanditEnv._means self = VSeq [0.3]%Q
      /\ Discrete_contains (BernoulliBanditEnv.k self) 1 = true
      /\ BernoulliBanditEnv.step 1 self = (self, Raise IndexError)
      /\ IndexError <> AssertionError).
Proof.
  assert (short_task !! "mean" = Some (VSeq [0.3]%Q)) as Hm by reflexivity.
  assert (Z.of_nat (length [0.3]%Q) < BernoulliBanditEnv.k two_armed) as Hs
    by (vm_compute; reflexivity).
  assert (Z.of_nat (length [0.3]%Q) <= 1 < BernoulliBanditEnv.k two_armed)
    as Ha by (split; vm_compute; [discriminate | reflexivity]).
  exact (conj Hm (conj Hs (conj Ha
           (short_mean_index_error two_armed short_task [0.3]%Q 1 Hm Hs Ha)))).
Defined.

Section TaskClaims.
Context {rng : Type} `{!RandomSource rng}.
Context {data : Type} `{!MujocoEngine data}.

(** C3, as the code has it.  In each of the four variants [reset_task]
    stores the new task first and looks up the variant's field second.  With
    the field present the reward parameter becomes the new task's value and
    nothing else changes.  With the field absent the call raises [KeyError]
    on that field, nothing is defaulted, and the environment is left holding
    the new task next to the reward parameter it had before. *)
Theorem reset_task_stores_then_looks_up
    (b : BernoulliBanditEnv.t rng) (g : GaussianBanditEnv.t rng)
    (v : HalfCheetahVelEnv.t rng data) (d : HalfCheetahDirEnv.t rng data)
    (task : Task) :
  BernoulliBanditEnv.reset_task task b =
    match task !! "mean" with
    | Some m =>
        (BernoulliBanditEnv.mk (BernoulliBanditEnv.k b) task m
           (BernoulliBanditEnv.np_random b), Ok tt)
    | None =>
        (BernoulliBanditEnv.mk (BernoulliBanditEnv.k b) task
           (BernoulliBanditEnv._means b) (BernoulliBanditEnv.np_random b),
         Raise (KeyError "mean"))
    end
  /\ GaussianBanditEnv.reset_task task g =
    match task !! "mean" with
    | Some m =>
        (GaussianBanditEnv.mk (GaussianBanditEnv.k g)
           (GaussianBanditEnv.std g) task m (GaussianBanditEnv.np_random g),
         Ok tt)
    | None =>
        (GaussianBanditEnv.mk (GaussianBanditEnv.k g)
           (GaussianBanditEnv.std g) task (GaussianBanditEnv._means g)
           (GaussianBanditEnv.np_random g),
         Raise (KeyError "mean"))
    end
  /\ HalfCheetahVelEnv.reset_task task v =
    match task !! "velocity" with
    | Some x =>
        (HalfCheetahVelEnv.mk (HalfCheetahVelEnv.super v)
           (HalfCheetahVelEnv.low v) (HalfCheetahVelEnv.high v) task x,
         Ok tt)
    | None =>
        (HalfCheetahVelEnv.mk (HalfCheetahVelEnv.super v)
           (HalfCheetahVelEnv.low v) (HalfCheetahVelEnv.high v) task
           (HalfCheetahVelEnv._goal_vel v),
         Raise (KeyError "velocity"))
    end
  /\ HalfCheetahDirEnv.reset_task task d =
    match task !! "direction" with
    | Some x =>
        (HalfCheetahDirEnv.mk (HalfCheetahDirEnv.super d) task x, Ok tt)
    | None =>
        (HalfCheetahDirEnv.mk (HalfCheetahDirEnv.super d) task
           (HalfCheetahDirEnv._goal_dir d),
         Raise (KeyError "direction"))
    end.
Proof.
  repeat split.
  - apply bernoulli_reset_task_spec.
  - apply gaussian_reset_task_spec.
  - apply vel_reset_task_spec.
  - apply dir_reset_task_spec.
Qed.

(** C5.  In each variant the tasks [sample_tasks] returns, and the
    generator it leaves behind, are determined by the environment's own
    generator and its distribution parameters (number of arms; bounds): two
    environments that agree on these return the same tasks.  Two bandits
    with the same number of arms, seeded with the same seed through [seed],
    return the same tasks whatever their earlier generators, tasks and the
    entropy available to them. *)
Theorem sample_tasks_deterministic
    (b1 b2 : BernoulliBanditEnv.t rng) (g1 g2 : GaussianBanditEnv.t rng)
    (v1 v2 : HalfCheetahVelEnv.t rng data)
    (d1 d2 : HalfCheetahDirEnv.t rng data)
    (s entropy1 entropy2 n : Z) :
  BernoulliBanditEnv.k b1 = BernoulliBanditEnv.k b2 ->
  GaussianBanditEnv.k g1 = GaussianBanditEnv.k g2 ->
  HalfCheetahVelEnv.low v1 = HalfCheetahVelEnv.low v2 ->
  HalfCheetahVelEnv.high v1 = HalfCheetahVelEnv.high v2 ->
  HalfCheetahEnv.np_random (HalfCheetahVelEnv.super v1)
    = HalfCheetahEnv.np_random (HalfCheetahVelEnv.super v2) ->
  HalfCheetahEnv.np_random (HalfCheetahDirEnv.super d1)
    = HalfCheetahEnv.np_random (HalfCheetahDirEnv.super d2) ->
  (snd (BernoulliBanditEnv.sample_tasks n
          (fst (BernoulliBanditEnv.seed (Some s) entropy1 b1)))
   = snd (BernoulliBanditEnv.sample_tasks n
            (fst (BernoulliBanditEnv.seed (Some s) entropy2 b2))))
  /\ (snd (GaussianBanditEnv.sample_tasks n
             (fst (GaussianBanditEnv.seed (Some s) entropy1 g1)))
      = snd (GaussianBanditEnv.sample_tasks n
               (fst (GaussianBanditEnv.seed (Some s) entropy2 g2))))
  /\ (BernoulliBanditEnv.np_random b1 = BernoulliBanditEnv.np_random b2 ->
      snd (BernoulliBanditEnv.sample_tasks n b1)
      = snd (BernoulliBanditEnv.sample_tasks n b2))
  /\ (GaussianBanditEnv.np_random g1 = GaussianBanditEnv.np_random g2 ->
      snd (GaussianBanditEnv.sample_tasks n g1)
      = snd (GaussianBanditEnv.sample_tasks n g2))
  /\ snd (HalfCheetahVelEnv.sample_tasks n v1)
     = snd (HalfCheetahVelEnv.sample_tasks n v2)
  /\ snd (HalfCheetahDirEnv.sample_tasks n d1)
     = snd (HalfCheetahDirEnv.sample_tasks n d2).
Proof.
  intros Hkb Hkg Hlow Hhigh Hv Hd. repeat split.
  - apply bernoulli_sample_tasks_congr; [exact Hkb | reflexivity].
  - apply gaussian_sample_tasks_congr; [exact Hkg | reflexivity].
  - intros Hg. apply bernoulli_sample_tasks_congr; assumption.
  - intros Hg. apply gaussian_sample_tasks_congr; assumption.
  - apply vel_sample_tasks_congr; assumption.
  - apply dir_sample_tasks_congr; assumption.
Qed.
End TaskClaims.

(** C3 as stated fails: resetting [biased_bandit] to the empty task raises
    [KeyError], and the environment it leaves behind is not the one before
    the call: it holds the new, empty task together with the mean of the
    old task. *)
Lemma reset_task_partial_merge :
  exists env',
    BernoulliBanditEnv.reset_task ∅ biased_bandit
      = (env', Raise (KeyError "mean"))
    /\ BernoulliBanditEnv._task biased_bandit = biased
    /\ BernoulliBanditEnv._task env' = ∅
    /\ dict_getitem biased "mean" = Ok (BernoulliBanditEnv._means env')
    /\ env' <> biased_bandit.
Proof.
  eexists. split; [rewrite bernoulli_reset_task_spec; reflexivity|].
  repeat split.
  intros E. apply (f_equal BernoulliBanditEnv._task) in E.
  apply (f_equal (fun m : Task => m !! "mean")) in E.
  vm_compute in E. discriminate E.
Qed.

Lemma sample_tasks_deterministic_witness :
  BernoulliBanditEnv.k two_armed = BernoulliBanditEnv.k biased_bandit
  /\ GaussianBanditEnv.k plain_gaussian = GaussianBanditEnv.k biased_gaussian
  /\ HalfCheetahVelEnv.low cheetah_vel = HalfCheetahVelEnv.low cheetah_vel_float
  /\ HalfCheetahVelEnv.high cheetah_vel
     = HalfCheetahVelEnv.high cheetah_vel_float
  /\ HalfCheetahEnv.np_random (HalfCheetahVelEnv.super cheetah_vel)
     = HalfCheetahEnv.np_random (HalfCheetahVelEnv.super cheetah_vel_float)
  /\ HalfCheetahEnv.np_random (HalfCheetahDirEnv.super cheetah_dir)
     = HalfCheetahEnv.np_random (HalfCheetahDirEnv.super cheetah_back)
  /\ snd (BernoulliBanditEnv.sample_tasks 3
            (fst (BernoulliBanditEnv.seed (Some 7) 1 two_armed)))
     = snd (BernoulliBanditEnv.sample_tasks 3
              (fst (BernoulliBanditEnv.seed (Some 7) 2 biased_bandit)))
  /\ snd (HalfCheetahVelEnv.sample_tasks 3 cheetah_vel)
     = snd (HalfCheetahVelEnv.sample_tasks 3 cheetah_vel_float)
  /\ snd (HalfCheetahDirEnv.sample_tasks 3 cheetah_dir)
     = snd (HalfCheetahDirEnv.sample_tasks 3 cheetah_back).
Proof.
  assert (BernoulliBanditEnv.k two_armed = BernoulliBanditEnv.k biased_bandit)
    as H1 by reflexivity.
  assert (GaussianBanditEnv.k plain_gaussian
          = GaussianBanditEnv.k biased_gaussian) as H2 by reflexivity.
  assert (HalfCheetahVelEnv.low cheetah_vel
          = HalfCheetahVelEnv.low cheetah_vel_float) as H3 by reflexivity.
  assert (HalfCheetahVelEnv.high cheetah_vel
          = HalfCheetahVelEnv.high cheetah_vel_float) as H4 by reflexivity.
  assert (HalfCheetahEnv.np_random (HalfCheetahVelEnv.super cheetah_vel)
          = HalfCheetahEnv.np_random
              (HalfCheetahVelEnv.super cheetah_vel_float)) as H5
    by reflexivity.
  assert (HalfCheetahEnv.np_random (HalfCheetahDirEnv.super cheetah_dir)
          = HalfCheetahEnv.np_random (HalfCheetahDirEnv.super cheetah_back))
    as H6 by reflexivity.
  destruct (sample_tasks_deterministic two_armed biased_bandit
              plain_gaussian biased_gaussian cheetah_vel cheetah_vel_float
              cheetah_dir cheetah_back 7 1 2 3 H1 H2 H3 H4 H5 H6)
    as (Eb & _ & _ & _ & Ev & Ed).
  exact (conj H1 (conj H2 (conj H3 (conj H4 (conj H5 (conj H6
           (conj Eb (conj Ev Ed)))))))).
Defined.

(** Facts on the two task rewards and on the control cost. *)

Lemma vel_forward_reward_abs (goal v : Q) :
  (HalfCheetahVelEnv.forward_reward_of goal v == - Qabs (v - goal))%Q.
Proof. unfold HalfCheetahVelEnv.forward_reward_of. ring. Qed.

Lemma ctrl_cost_of_eq (action : list Q) :
  (ctrl_cost_of action == 0.5 * 0.1 * np_sum (np_square action))%Q.
Proof. unfold ctrl_cost_of. reflexivity. Qed.

Lemma Qabs_zero_iff (x : Q) : (Qabs x == 0 <-> x == 0)%Q.
Proof.
  split.
  - apply (Qabs_case x (fun a => a == 0 -> x == 0)%Q); intros; lra.
  - intros ->. reflexivity.
Qed.

Section LocomotionClaims.
Context {rng : Type} `{!RandomSource rng}.
Context {data : Type} `{!MujocoEngine data}.

(** C4.  When the engine accepts the action and the position vector has
    its first coordinate before ([x0], [y0]) and after ([x1], [y1]) the
    simulation, a step returns; with the forward velocity
    [(x_after - x_before) / dt], its task reward is minus the distance of
    the forward velocity to the goal velocity in the velocity variant and
    the goal direction times the forward velocity in the direction variant;
    the reward returned is the task reward minus the control cost, and the
    info dictionary carries the task reward and the negated control cost. *)
Theorem locomotion_reward_formula
    (v : HalfCheetahVelEnv.t rng data) (d : HalfCheetahDirEnv.t rng data)
    (action : list Q) (x0 x1 goal_vel y0 y1 goal_dir : Q) (dv dd : data) :
  let bv := HalfCheetahVelEnv.super v in
  let bd := HalfCheetahDirEnv.super d in
  qpos (HalfCheetahEnv.data_ bv) !! 0%nat = Some x0 ->
  do_simulation (HalfCheetahEnv.data_ bv) action (HalfCheetahEnv.frame_skip bv)
    = Ok dv ->
  qpos dv !! 0%nat = Some x1 ->
  HalfCheetahVelEnv._goal_vel v = VNum goal_vel ->
  qpos (HalfCheetahEnv.data_ bd) !! 0%nat = Some y0 ->
  do_simulation (HalfCheetahEnv.data_ bd) action (HalfCheetahEnv.frame_skip bd)
    = Ok dd ->
  qpos dd !! 0%nat = Some y1 ->
  HalfCheetahDirEnv._goal_dir d = VNum goal_dir ->
  (exists v' obs reward info,
     HalfCheetahVelEnv.step action v
       = (v', Ok (obs, reward, false, false, info))
     /\ (reward_forward info
         == - Qabs ((x1 - x0) / HalfCheetahEnv.dt bv - goal_vel))%Q
     /\ (reward_ctrl info == - ctrl_cost_of action)%Q
     /\ (reward == reward_forward info - ctrl_cost_of action)%Q)
  /\ (exists d' obs reward info,
     HalfCheetahDirEnv.step action d
       = (d', Ok (obs, reward, false, false, info))
     /\ (reward_forward info
         == goal_dir * ((y1 - y0) / HalfCheetahEnv.dt bd))%Q
     /\ (reward_ctrl info == - ctrl_cost_of action)%Q
     /\ (reward == reward_forward info - ctrl_cost_of action)%Q).
Proof.
  intros bv bd Hx0 Hsv Hx1 Hgv Hy0 Hsd Hy1 Hgd. split.
  - do 4 eexists. split.
    + apply (vel_step_spec v action x0 x1 goal_vel dv); assumption.
    + cbn [reward_forward reward_ctrl]. repeat split; try reflexivity.
      apply vel_forward_reward_abs.
  - do 4 eexists. split.
    + apply (dir_step_spec d action y0 y1 goal_dir dd); assumption.
    + cbn [reward_forward reward_ctrl]. repeat split; reflexivity.
Qed.

(** C7.  In both variants, whatever a step returns has [done = False] and
    [truncated = False]; and a step does return, with these flags, whenever
    the engine accepts the action, the position vector has a first
    coordinate before and after the simulation, and the goal is a number. *)
Theorem locomotion_never_done
    (v : HalfCheetahVelEnv.t rng data) (d : HalfCheetahDirEnv.t rng data)
    (action : list Q) :
  (forall v' obs reward done truncated info,
     HalfCheetahVelEnv.step action v
       = (v', Ok (obs, reward, done, truncated, info)) ->
     done = false /\ truncated = false)
  /\ (forall d' obs reward done truncated info,
     HalfCheetahDirEnv.step action d
       = (d', Ok (obs, reward, done, truncated, info)) ->
     done = false /\ truncated = false)
  /\ (forall x0 x1 goal_vel dv,
     qpos (HalfCheetahEnv.data_ (HalfCheetahVelEnv.super v)) !! 0%nat
       = Some x0 ->
     do_simulation (HalfCheetahEnv.data_ (HalfCheetahVelEnv.super v)) action
       (HalfCheetahEnv.frame_skip (HalfCheetahVelEnv.super v)) = Ok dv ->
     qpos dv !! 0%nat = Some x1 ->
     HalfCheetahVelEnv._goal_vel v = VNum goal_vel ->
     exists v' obs reward info,
       HalfCheetahVelEnv.step action v
         = (v', Ok (obs, reward, false, false, info)))
  /\ (forall y0 y1 goal_dir dd,
     qpos (HalfCheetahEnv.data_ (HalfCheetahDirEnv.super d)) !! 0%nat
       = Some y0 ->
     do_simulation (HalfCheetahEnv.data_ (HalfCheetahDirEnv.super d)) action
       (HalfCheetahEnv.frame_skip (HalfCheetahDirEnv.super d)) = Ok dd ->
     qpos dd !! 0%nat = Some y1 ->
     HalfCheetahDirEnv._goal_dir d = VNum goal_dir ->
     exists d' obs reward info,
       HalfCheetahDirEnv.step action d
         = (d', Ok (obs, reward, false, false, info))).
Proof.
  split; [|split; [|split]].
  - intros v' obs reward done truncated info Hstep.
    exact (vel_step_flags _ _ _ _ _ _ _ _ Hstep).
  - intros d' obs reward done truncated info Hstep.
    exact (dir_step_flags _ _ _ _ _ _ _ _ Hstep).
  - intros x0 x1 goal_vel dv Hx0 Hs Hx1 Hg. do 4 eexists.
    apply (vel_step_spec v action x0 x1 goal_vel dv); assumption.
  - intros y0 y1 goal_dir dd Hy0 Hs Hy1 Hg. do 4 eexists.
    apply (dir_step_spec d action y0 y1 goal_dir dd); assumption.
Qed.
End LocomotionClaims.

(** C8.  The task reward of the velocity variant, as a function of the
    forward velocity, is never positive, is zero exactly at the goal
    velocity, and is strictly larger at a velocity strictly nearer the
    goal. *)
Theorem vel_reward_peak_at_goal (goal v v1 v2 : Q) :
  (HalfCheetahVelEnv.forward_reward_of goal v <= 0)%Q
  /\ (HalfCheetahVelEnv.forward_reward_of goal v == 0 <-> v == goal)%Q
  /\ ((Qabs (v1 - goal) < Qabs (v2 - goal))%Q ->
      (HalfCheetahVelEnv.forward_reward_of goal v2
       < HalfCheetahVelEnv.forward_reward_of goal v1)%Q).
Proof.
  rewrite !vel_forward_reward_abs.
  pose proof (Qabs_nonneg (v - goal)) as Hn.
  pose proof (Qabs_zero_iff (v - goal)) as [Hz1 Hz2].
  split; [lra|]. split; [split|].
  - intros E. assert (Qabs (v - goal) == 0)%Q as E' by lra.
    apply Hz1 in E'. lra.
  - intros E. assert (v - goal == 0)%Q as E' by lra.
    apply Hz2 in E'. lra.
  - intros Hlt. lra.
Qed.

Lemma locomotion_reward_formula_witness :
  (exists v' obs reward info,
     HalfCheetahVelEnv.step unit_action cheetah_vel
       = (v', Ok (obs, reward, false, false, info))
     /\ (reward_forward info
         == - Qabs ((root_after_unit_action - 0)
                    / HalfCheetahEnv.dt (HalfCheetahVelEnv.super cheetah_vel)
                    - 1.0))%Q
     /\ (reward_ctrl info == - ctrl_cost_of unit_action)%Q
     /\ (reward == reward_forward info - ctrl_cost_of unit_action)%Q)
  /\ (exists d' obs reward info,
     HalfCheetahDirEnv.step unit_action cheetah_back
       = (d', Ok (obs, reward, false, false, info))
     /\ (reward_forward info
         == (-1) * ((root_after_unit_action - 0)
                    / HalfCheetahEnv.dt (HalfCheetahDirEnv.super cheetah_back)))%Q
     /\ (reward_ctrl info == - ctrl_cost_of unit_action)%Q
     /\ (reward == reward_forward info - ctrl_cost_of unit_action)%Q).
Proof.
  exact (locomotion_reward_formula cheetah_vel cheetah_back unit_action
           0%Q root_after_unit_action 1.0%Q
           0%Q root_after_unit_action (-1)%Q
           after_unit_action after_unit_action
           eq_refl eq_refl eq_refl eq_refl eq_refl eq_refl eq_refl eq_refl).
Defined.

Lemma locomotion_never_done_witness :
  (exists v' obs reward info,
     HalfCheetahVelEnv.step unit_action cheetah_vel
       = (v', Ok (obs, reward, false, false, info)))
  /\ (exists d' obs reward info,
     HalfCheetahDirEnv.step unit_action cheetah_back
       = (d', Ok (obs, reward, false, false, info)))
  /\ (forall v' obs reward done truncated info,
     HalfCheetahVelEnv.step unit_action cheetah_vel
       = (v', Ok (obs, reward, done, truncated, info)) ->
     done = false /\ truncated = false).
Proof.
  destruct (locomotion_never_done cheetah_vel cheetah_back unit_action)
    as (Fv & _ & Rv & Rd).
  split; [|split].
  - exact (Rv 0%Q root_after_unit_action 1.0%Q after_unit_action
              eq_refl eq_refl eq_refl eq_refl).
  - exact (Rd 0%Q root_after_unit_action (-1)%Q after_unit_action
              eq_refl eq_refl eq_refl eq_refl).
  - exact Fv.
Defined.

Lemma vel_reward_peak_at_goal_witness :
  (Qabs (1.5 - 1.0) < Qabs (3.0 - 1.0))%Q
  /\ (HalfCheetahVelEnv.forward_reward_of 1.0 3.0
      < HalfCheetahVelEnv.forward_reward_of 1.0 1.5)%Q.
Proof.
  assert (Qabs (1.5 - 1.0) < Qabs (3.0 - 1.0))%Q as Hlt by reflexivity.
  destruct (vel_reward_peak_at_goal 1.0 1.0 1.5 3.0) as (_ & _ & Hmono).
  exact (conj Hlt (Hmono Hlt)).
Defined.

(** The control cost and the constructor's weight. *)

Section ControlCost.
Context {rng : Type} `{!RandomSource rng}.
Context {data : Type} `{!MujocoEngine data}.

(** With the constructor's default weight the control cost of a step is
    [0.5 * ctrl_cost_weight * sum(action^2)]. *)
Lemma ctrl_cost_default_weight (entropy : Z) (action : list Q) :
  let b : HalfCheetahEnv.t rng data :=
    HalfCheetahEnv.__init__ no_kwargs entropy in
  (ctrl_cost_of action
   == 0.5 * HalfCheetahEnv._ctrl_cost_weight b * np_sum (np_square action))%Q.
Proof. reflexivity. Qed.

(** The weight the constructor was given is stored. *)
Lemma ctrl_cost_weight_stored (kwargs : HalfCheetahKwargs) (entropy : Z)
    (w : Q) :
  ctrl_cost_weight kwargs = Some w ->
  HalfCheetahEnv._ctrl_cost_weight
    (HalfCheetahEnv.__init__ (rng := rng) (data := data) kwargs entropy) = w.
Proof. intros Hw. unfold HalfCheetahEnv.__init__. rewrite Hw. reflexivity. Qed.
End ControlCost.

(** C1 at [ctrl_cost_weight=0.5].  The environment stores the weight 0.5,
    and a step with [unit_action], whose squares sum to 1, reports a control
    cost of 0.05: the step uses the literal [1e-1] and not the stored weight,
    with which the cost would be 0.25. *)
Theorem vel_step_ignores_ctrl_cost_weight :
  HalfCheetahEnv._ctrl_cost_weight (HalfCheetahVelEnv.super cheetah_heavy_ctrl)
    = 0.5%Q
  /\ (np_sum (np_square unit_action) == 1)%Q
  /\ exists v' obs reward info,
       HalfCheetahVelEnv.step unit_action cheetah_heavy_ctrl
         = (v', Ok (obs, reward, false, false, info))
       /\ (reward_ctrl info == - 0.05)%Q
       /\ (reward == reward_forward info - 0.05)%Q
       /\ ~ (reward_ctrl info
             == - (0.5 * HalfCheetahEnv._ctrl_cost_weight
                           (HalfCheetahVelEnv.super cheetah_heavy_ctrl)
                       * np_sum (np_square unit_action)))%Q.
Proof.
  split; [reflexivity|]. split; [reflexivity|].
  do 4 eexists. split.
  - apply (vel_step_spec cheetah_heavy_ctrl unit_action 0%Q
             root_after_unit_action 1.0%Q after_unit_action); reflexivity.
  - cbn [reward_ctrl reward_forward]. repeat split; try reflexivity.
    vm_compute. discriminate.
Qed.

(** The sampler. *)

Section SamplerClaims.
Variable Policy : Type.
Variable R : Type.
Variable gym_make : string -> Task -> result GymEnv.

(** What a construction does on the environment it obtains.  The reset is
    made exactly when the environment has a [seed] attribute; when the reset
    raises, the construction raises with it and the close is never reached;
    otherwise the close is the last call and the sampler holds the
    environment so left.  A failure of [gym.make] is the failure of the
    construction. *)
Lemma sampler_init_spec
    (env_name : string) (env_kwargs : Task) (batch_size : Z)
    (policy : Policy) (seed : option Z) (env : option GymEnv) :
  Sampler.__init__ Policy gym_make env_name env_kwargs batch_size policy
    seed env
  = match (match env with
           | None => gym_make env_name env_kwargs
           | Some e => Ok e
           end) with
    | Raise x => (None, Raise x)
    | Ok e0 =>
        if has_seed_attr e0 then
          match reset_seed_raises e0 with
          | Some x => (Some e0, Raise x)
          | None =>
              let e1 :=
                mkGymEnv (has_seed_attr e0) (reset_seed_raises e0)
                  (env_calls e0 ++ [CallReset seed; CallClose]) in
              (Some e1,
               Ok (Sampler.mk Policy env_name env_kwargs batch_size policy
                     seed e1 false))
          end
        else
          let e1 :=
            mkGymEnv (has_seed_attr e0) (reset_seed_raises e0)
              (env_calls e0 ++ [CallClose]) in
          (Some e1,
           Ok (Sampler.mk Policy env_name env_kwargs batch_size policy
                 seed e1 false))
    end.
Proof.
  unfold Sampler.__init__, Sampler.seed_then_close, env_reset, env_close.
  run.
  destruct (match env with
            | None => gym_make env_name env_kwargs
            | Some e => Ok e
            end) as [e0|x]; [|reflexivity].
  destruct e0 as [[] [x|] calls]; cbn; rewrite <- ?app_assoc; reflexivity.
Qed.

(** C9.  On the base class [sample_async] and [sample] raise
    [NotImplementedError] for every argument list and leave the sampler as
    it was; and in every class [sample] is the call of that class's
    [sample_async] on the same arguments. *)
Theorem base_sampler_not_implemented
    (self : Sampler.t Policy) (args : list value) (kwargs : Task)
    (cls : Sampler.class Policy R) :
  Sampler.sample_async Policy R (Sampler.base Policy R) args kwargs self
    = (self, Raise NotImplementedError)
  /\ Sampler.sample Policy R (Sampler.base Policy R) args kwargs self
    = (self, Raise NotImplementedError)
  /\ Sampler.sample Policy R cls args kwargs self
    = Sampler.sample_async Policy R cls args kwargs self.
Proof. repeat split. Qed.
End SamplerClaims.

(** C2 on the environments of this repository.  A sampler constructed
    with seed 7 on a bandit of [bandit.py] raises [TypeError] from
    [reset(seed=7)]: the bandit has the [seed] attribute the guard tests
    for, and a [reset] that takes no seed.  The bandit is left as it was,
    with no call completed on it: neither seeded nor closed.  Constructed on
    an environment without a [seed] attribute, the sampler returns with the
    environment closed and never seeded: the only call made on it is the
    close. *)
Theorem sampler_init_stale_seed_guard :
  Sampler.__init__ unit registry "Bandit-K5-v0" ∅ 20 tt (Some 7)
    (Some bandit_object)
  = (Some bandit_object, Raise TypeError)
  /\ env_calls bandit_object = []
  /\ exists self,
       Sampler.__init__ unit registry "HalfCheetahVel-v2" ∅ 20 tt (Some 7)
         None
       = (Some (Sampler.env unit self), Ok self)
       /\ has_seed_attr (Sampler.env unit self) = false
       /\ env_calls (Sampler.env unit self) = [CallClose]
       /\ CallReset (Some 7) ∉ env_calls (Sampler.env unit self).
Proof.
  split; [reflexivity|]. split; [reflexivity|].
  exists (Sampler.mk unit "HalfCheetahVel-v2" ∅ 20 tt (Some 7)
            (mkGymEnv false None [CallClose]) false).
  split; [reflexivity|]. cbn. repeat split.
  intros Hin. apply list_elem_of_singleton in Hin. discriminate Hin.
Qed.

(** * Further properties *)

(** ** The draws behind the task distributions *)

Section Draws.
Context {rng : Type} `{!RandomSource rng}.

Lemma random_samples_shape (g : rng) (n : nat) :
  length (fst (random_samples g n)) = n
  /\ Forall in_unit (fst (random_samples g n)).
Proof.
  revert g. induction n as [|n IH]; intros g; cbn [random_samples].
  - split; [reflexivity | constructor].
  - pose proof (random_sample_range g) as Hr.
    destruct (random_sample g) as [u g1]. specialize (IH g1).
    destruct (random_samples g1 n) as [us g2]. cbn [fst] in *.
    destruct IH as [IHl IHf]. split; [cbn; congruence|].
    constructor; assumption.
Qed.

Lemma random_rows_shape (g : rng) (rows cols : nat) :
  length (fst (random_rows g rows cols)) = rows
  /\ Forall (fun row => length row = cols /\ Forall in_unit row)
            (fst (random_rows g rows cols)).
Proof.
  revert g. induction rows as [|r IH]; intros g; cbn [random_rows].
  - split; [reflexivity | constructor].
  - pose proof (random_samples_shape g cols) as Hrow.
    destruct (random_samples g cols) as [row g1]. specialize (IH g1).
    destruct (random_rows g1 r cols) as [rest g2]. cbn [fst] in *.
    destruct IH as [IHl IHf]. split; [cbn; congruence|].
    constructor; assumption.
Qed.

Lemma bernoulli_bit (p u : Q) : bernoulli p u = 0 \/ bernoulli p u = 1.
Proof. unfold bernoulli. destruct (Qle_bool p u); auto. Qed.

Lemma in_unit_accepted (p : Q) :
  in_unit p -> Qle_bool 0 p && Qle_bool p 1 = true.
Proof.
  intros [Hlo Hhi]. apply andb_true_intro.
  split; apply Qle_bool_iff; lra.
Qed.
Lemma rand_shape (gen : rng) (n k : Z) :
  0 <= n -> 0 <= k ->
  exists rows gen',
    rand gen n k = Ok (rows, gen')
    /\ length rows = Z.to_nat n
    /\ Forall (fun row => length row = Z.to_nat k /\ Forall in_unit row) rows.
Proof.
  intros Hn Hk. unfold rand.
  destruct (Z.ltb_spec n 0); [lia|]. destruct (Z.ltb_spec k 0); [lia|].
  cbn [orb].
  pose proof (random_rows_shape gen (Z.to_nat n) (Z.to_nat k)) as [Hl Hf].
  destruct (random_rows gen (Z.to_nat n) (Z.to_nat k)) as [rows gen'].
  exists rows, gen'. auto.
Qed.

(** [rand] returns only on non-negative dimensions. *)
Lemma rand_ok_dims (gen gen' : rng) (n k : Z) (rows : list (list Q)) :
  rand gen n k = Ok (rows, gen') -> 0 <= n /\ 0 <= k.
Proof.
  unfold rand.
  destruct (Z.ltb_spec n 0); [discriminate|].
  destruct (Z.ltb_spec k 0); [discriminate|]. lia.
Qed.

Lemma mean_tasks_shape (k : Z) (rows : list (list Q)) :
  Forall (fun row => length row = Z.to_nat k /\ Forall in_unit row) rows ->
  Forall (bandit_task_of k)
         (map (fun mean => ({[ "mean" := VSeq mean ]} : Task)) rows).
Proof.
  intros Hrows. induction Hrows as [|row rows [Hl Hu] _ IH].
  - constructor.
  - cbn [map]. constructor; [|exact IH]. exists row. auto.
Qed.
End Draws.

(** ** What [sample_tasks] returns *)

Section SampleTasksShape.
Context {rng : Type} `{!RandomSource rng}.
Context {data : Type} `{!MujocoEngine data}.

(** X1.  For a non-negative number of tasks and of arms, [sample_tasks] of
    either bandit returns exactly that many tasks, each a dictionary with the
    single key ["mean"] bound to [k] numbers in the half-open unit interval;
    the environment keeps its number of arms, task and means, only its
    generator moves on. *)
Theorem bandit_sample_tasks_shape
    (b : BernoulliBanditEnv.t rng) (g : GaussianBanditEnv.t rng) (n : Z) :
  0 <= n ->
  0 <= BernoulliBanditEnv.k b ->
  0 <= GaussianBanditEnv.k g ->
  (exists tasks gen,
     BernoulliBanditEnv.sample_tasks n b
       = (BernoulliBanditEnv.mk (BernoulliBanditEnv.k b)
            (BernoulliBanditEnv._task b) (BernoulliBanditEnv._means b) gen,
          Ok tasks)
     /\ length tasks = Z.to_nat n
     /\ Forall (bandit_task_of (BernoulliBanditEnv.k b)) tasks)
  /\ (exists tasks gen,
     GaussianBanditEnv.sample_tasks n g
       = (GaussianBanditEnv.mk (GaussianBanditEnv.k g)
            (GaussianBanditEnv.std g) (GaussianBanditEnv._task g)
            (GaussianBanditEnv._means g) gen,
          Ok tasks)
     /\ length tasks = Z.to_nat n
     /\ Forall (bandit_task_of (GaussianBanditEnv.k g)) tasks).
Proof.
  intros Hn Hkb Hkg. split.
  - destruct (rand_shape (BernoulliBanditEnv.np_random b) n _ Hn Hkb)
      as (rows & gen' & Er & Hl & Hf).
    unfold BernoulliBanditEnv.sample_tasks. rewrite Er.
    do 2 eexists. split; [reflexivity|].
    split; [rewrite length_map; exact Hl | apply mean_tasks_shape; exact Hf].
  - destruct (rand_shape (GaussianBanditEnv.np_random g) n _ Hn Hkg)
      as (rows & gen' & Er & Hl & Hf).
    unfold GaussianBanditEnv.sample_tasks. rewrite Er.
    do 2 eexists. split; [reflexivity|].
    split; [rewrite length_map; exact Hl | apply mean_tasks_shape; exact Hf].
Qed.
End SampleTasksShape.

Lemma bandit_sample_tasks_shape_witness :
  0 <= 3
  /\ 0 <= BernoulliBanditEnv.k two_armed
  /\ 0 <= GaussianBanditEnv.k plain_gaussian
  /\ (exists tasks gen,
     BernoulliBanditEnv.sample_tasks 3 two_armed
       = (BernoulliBanditEnv.mk (BernoulliBanditEnv.k two_armed)
            (BernoulliBanditEnv._task two_armed)
            (BernoulliBanditEnv._means two_armed) gen,
          Ok tasks)
     /\ length tasks = Z.to_nat 3
     /\ Forall (bandit_task_of (BernoulliBanditEnv.k two_armed)) tasks).
Proof.
  assert (0 <= 3) as H1 by (vm_compute; discriminate).
  assert (0 <= BernoulliBanditEnv.k two_armed) as H2
    by (vm_compute; discriminate).
  assert (0 <= GaussianBanditEnv.k plain_gaussian) as H3
    by (vm_compute; discriminate).
  exact (conj H1 (conj H2 (conj H3
           (proj1 (bandit_sample_tasks_shape two_armed plain_gaussian 3
                     H1 H2 H3))))).
Defined.

Lemma uniform_between (low high u : Q) :
  in_unit u -> (low <= high)%Q ->
  (low <= low + (high - low) * u)%Q
  /\ (low + (high - low) * u <= high)%Q
  /\ ((low < high)%Q -> (low + (high - low) * u < high)%Q).
Proof.
  intros [Hu0 Hu1] Hlh.
  assert (0 <= (high - low) * u)%Q as Hp
    by (apply Qmult_le_0_compat; lra).
  assert (0 <= (high - low) * (1 - u))%Q as Hq
    by (apply Qmult_le_0_compat; lra).
  split; [lra|]. split; [lra|].
  intros Hlt.
  assert (0 < (high - low) * (1 - u))%Q as Hs
    by (apply Qmult_lt_0_compat; lra).
  lra.
Qed.

Section DrawShapes.
Context {rng : Type} `{!RandomSource rng}.

Lemma uniform_shape (gen : rng) (low high : Q) (n : Z) :
  0 <= n -> (low <= high)%Q ->
  exists vs gen',
    uniform gen low high n = Ok (vs, gen')
    /\ length vs = Z.to_nat n
    /\ Forall (fun v => (low <= v)%Q /\ (v <= high)%Q
                        /\ ((low < high)%Q -> (v < high)%Q)) vs.
Proof.
  intros Hn Hlh. unfold uniform. destruct (Z.ltb_spec n 0); [lia|].
  pose proof (random_samples_shape gen (Z.to_nat n)) as [Hl Hf].
  destruct (random_samples gen (Z.to_nat n)) as [us gen'].
  cbn [fst] in Hl, Hf.
  do 2 eexists. split; [reflexivity|].
  split; [rewrite length_map; exact Hl|].
  clear Hl. induction Hf as [|u us Hu _ IH]; cbn [map]; constructor.
  - apply uniform_between; assumption.
  - exact IH.
Qed.

Lemma uniform_ok_dims (gen gen' : rng) (low high : Q) (n : Z) (vs : list Q) :
  uniform gen low high n = Ok (vs, gen') -> 0 <= n.
Proof.
  unfold uniform. destruct (Z.ltb_spec n 0); [discriminate | lia].
Qed.

Lemma binomial_half_shape (gen : rng) (n : Z) :
  0 <= n ->
  exists bs gen',
    binomial1_n gen 0.5 n = Ok (bs, gen')
    /\ length bs = Z.to_nat n
    /\ Forall (fun b => b = 0 \/ b = 1) bs.
Proof.
  intros Hn. unfold binomial1_n. destruct (Z.ltb_spec n 0); [lia|].
  change (Qle_bool 0 0.5 && Qle_bool 0.5 1) with true. cbv iota.
  pose proof (random_samples_shape gen (Z.to_nat n)) as [Hl _].
  destruct (random_samples gen (Z.to_nat n)) as [us gen'].
  cbn [fst] in Hl.
  do 2 eexists. split; [reflexivity|].
  split; [rewrite length_map; exact Hl|].
  clear Hl. induction us as [|u us IH]; cbn [map]; constructor.
  - apply bernoulli_bit.
  - exact IH.
Qed.

Lemma binomial_ok_dims (gen gen' : rng) (p : Q) (n : Z) (bs : list Z) :
  binomial1_n gen p n = Ok (bs, gen') -> 0 <= n.
Proof.
  unfold binomial1_n. destruct (Z.ltb_spec n 0); [discriminate | lia].
Qed.

Lemma velocity_tasks_shape (low high : Q) (vs : list Q) :
  Forall (fun v => (low <= v)%Q /\ (v <= high)%Q
                   /\ ((low < high)%Q -> (v < high)%Q)) vs ->
  Forall (velocity_task_in low high)
         (map (fun velocity => ({[ "velocity" := VNum velocity ]} : Task)) vs).
Proof.
  intros Hvs. induction Hvs as [|x vs Hx _ IH]; cbn [map]; constructor.
  - exists x. split; [reflexivity | exact Hx].
  - exact IH.
Qed.

Lemma direction_tasks_shape (bs : list Z) :
  Forall (fun b => b = 0 \/ b = 1) bs ->
  Forall direction_task
         (map (fun direction =>
                 ({[ "direction" := VNum (inject_Z direction) ]} : Task))
              (map (fun b => 2 * b - 1) bs)).
Proof.
  intros Hbs. induction Hbs as [|x bs Hx _ IH]; cbn [map]; constructor.
  - unfold direction_task. destruct Hx as [-> | ->]; [left | right]; reflexivity.
  - exact IH.
Qed.
End DrawShapes.

Section LocomotionSampleTasks.
Context {rng : Type} `{!RandomSource rng}.
Context {data : Type} `{!MujocoEngine data}.


(** X3.  For a non-negative number of tasks, [sample_tasks] of the
    direction environment returns exactly that many tasks, each a dictionary
    with the single key ["direction"] bound to -1 or to 1; the environment
    keeps its task and goal, only the generator moves on. *)
Theorem dir_sample_tasks_signs (d : HalfCheetahDirEnv.t rng data) (n : Z) :
  0 <= n ->
  exists tasks gen,
    HalfCheetahDirEnv.sample_tasks n d
      = (HalfCheetahDirEnv.mk
           (HalfCheetahEnv.set_np_random gen (HalfCheetahDirEnv.super d))
           (HalfCheetahDirEnv._task d) (HalfCheetahDirEnv._goal_dir d),
         Ok tasks)
    /\ length tasks = Z.to_nat n
    /\ Forall direction_task tasks.
Proof.
  intros Hn.
  destruct (binomial_half_shape
              (HalfCheetahEnv.np_random (HalfCheetahDirEnv.super d)) n Hn)
    as (bs & gen & Eb & Hl & Hf).
  unfold HalfCheetahDirEnv.sample_tasks. rewrite Eb.
  do 2 eexists. split; [reflexivity|].
  split; [rewrite !length_map; exact Hl | apply direction_tasks_shape, Hf].
Qed.
End LocomotionSampleTasks.


Lemma dir_sample_tasks_signs_witness :
  0 <= 4
  /\ exists tasks gen,
    HalfCheetahDirEnv.sample_tasks 4 cheetah_dir
      = (HalfCheetahDirEnv.mk
           (HalfCheetahEnv.set_np_random gen
              (HalfCheetahDirEnv.super cheetah_dir))
           (HalfCheetahDirEnv._task cheetah_dir)
           (HalfCheetahDirEnv._goal_dir cheetah_dir),
         Ok tasks)
    /\ length tasks = Z.to_nat 4
    /\ Forall direction_task tasks.
Proof.
  assert (0 <= 4) as H1 by (vm_compute; discriminate).
  exact (conj H1 (dir_sample_tasks_signs cheetah_dir 4 H1)).
Defined.

(** ** A new task and the step after it *)

Lemma contains_bounds (n x : Z) :
  Discrete_contains n x = true <-> 0 <= x < n.
Proof.
  unfold Discrete_contains. rewrite andb_true_iff, Z.leb_le, Z.ltb_lt.
  reflexivity.
Qed.

Lemma seq_getitem_arm (l : list Q) (action : Z) (p : Q) :
  0 <= action -> l !! Z.to_nat action = Some p -> seq_getitem l action = Ok p.
Proof.
  intros Ha Hl. rewrite <- (Z2Nat.id action Ha).
  apply seq_getitem_lookup. exact Hl.
Qed.

Section ResetThenStep.
Context {rng : Type} `{!RandomSource rng}.

Lemma bernoulli_reset_step_spec (env : BernoulliBanditEnv.t rng) (task : Task)
    (l : list Q) (action : Z) (p : Q) :
  task !! "mean" = Some (VSeq l) ->
  Discrete_contains (BernoulliBanditEnv.k env) action = true ->
  l !! Z.to_nat action = Some p ->
  (0 <= p)%Q -> (p <= 1)%Q ->
  BernoulliBanditEnv.step action (fst (BernoulliBanditEnv.reset_task task env))
  = (BernoulliBanditEnv.mk (BernoulliBanditEnv.k env) task (VSeq l)
       (snd (random_sample (BernoulliBanditEnv.np_random env))),
     Ok ([0%Q],
         bernoulli p (fst (random_sample (BernoulliBanditEnv.np_random env))),
         true, {| info_task := task |})).
Proof.
  intros Hm Hc Hl Hp0 Hp1.
  rewrite bernoulli_reset_task_spec, Hm. cbn [fst].
  apply contains_bounds in Hc as Hb.
  rewrite (bernoulli_step_spec _ action l p); try reflexivity; try assumption.
  - apply seq_getitem_arm; [lia | exact Hl].
  - apply andb_true_intro. split; apply Qle_bool_iff; assumption.
Qed.

(** X4.  After [reset_task] with a task whose mean sequence has a
    probability at the pulled arm, the step of a Bernoulli bandit depends on
    the earlier task and means in nothing: it returns the zero observation,
    [done = True], the new task in the info dictionary, and as reward the
    Bernoulli draw for the new task's probability from the generator's next
    uniform draw, by which alone the generator advances. *)
Theorem bernoulli_reset_then_step (env : BernoulliBanditEnv.t rng)
    (task : Task) (l : list Q) (action : Z) (p : Q) :
  task !! "mean" = Some (VSeq l) ->
  Discrete_contains (BernoulliBanditEnv.k env) action = true ->
  l !! Z.to_nat action = Some p ->
  (0 <= p)%Q -> (p <= 1)%Q ->
  exists env' reward,
    BernoulliBanditEnv.step action
      (fst (BernoulliBanditEnv.reset_task task env))
    = (env', Ok ([0%Q], reward, true, {| info_task := task |}))
    /\ reward
       = bernoulli p (fst (random_sample (BernoulliBanditEnv.np_random env)))
    /\ (reward = 0 \/ reward = 1)
    /\ BernoulliBanditEnv.np_random env'
       = snd (random_sample (BernoulliBanditEnv.np_random env))
    /\ BernoulliBanditEnv._task env' = task
    /\ BernoulliBanditEnv._means env' = VSeq l
    /\ BernoulliBanditEnv.k env' = BernoulliBanditEnv.k env.
Proof.
  intros Hm Hc Hl Hp0 Hp1. do 2 eexists. split.
  - apply (bernoulli_reset_step_spec env task l action p); assumption.
  - cbn. repeat split; try reflexivity. apply bernoulli_bit.
Qed.

(** X5.  Every task that [sample_tasks] of a Bernoulli bandit returns is
    complete and safe for a bandit with the same number of arms:
    [reset_task] accepts it, and the step after it returns for every action
    of the action space, with a reward of 0 or 1. *)
Theorem bernoulli_sampled_task_steps (self env : BernoulliBanditEnv.t rng)
    (n : Z) (tasks : list Task) (task : Task) (action : Z) :
  snd (BernoulliBanditEnv.sample_tasks n self) = Ok tasks ->
  task ∈ tasks ->
  BernoulliBanditEnv.k env = BernoulliBanditEnv.k self ->
  Discrete_contains (BernoulliBanditEnv.k env) action = true ->
  snd (BernoulliBanditEnv.reset_task task env) = Ok tt
  /\ exists env' reward,
       BernoulliBanditEnv.step action
         (fst (BernoulliBanditEnv.reset_task task env))
       = (env', Ok ([0%Q], reward, true, {| info_task := task |}))
       /\ (reward = 0 \/ reward = 1).
Proof.
  intros Hs Hin Hk Hc. unfold BernoulliBanditEnv.sample_tasks in Hs.
  destruct (rand _ n _) as [[rows gen']|e] eqn:Er; [|discriminate Hs].
  cbn [snd] in Hs. injection Hs as <-.
  destruct (rand_ok_dims _ _ _ _ _ Er) as [Hn Hk0].
  destruct (rand_shape (BernoulliBanditEnv.np_random self) n _ Hn Hk0)
    as (rows' & gen'' & Er' & _ & Hf).
  rewrite Er in Er'. injection Er' as <- <-.
  apply mean_tasks_shape in Hf. rewrite Forall_forall in Hf.
  destruct (Hf task Hin) as (m & -> & Hlen & Hunit).
  assert (({[ "mean" := VSeq m ]} : Task) !! "mean" = Some (VSeq m)) as Hm
    by apply lookup_singleton_eq.
  split; [rewrite bernoulli_reset_task_spec, Hm; reflexivity|].
  apply contains_bounds in Hc as Hb.
  assert (Z.to_nat action < length m)%nat as Hlt by lia.
  destruct (lookup_lt_is_Some_2 m _ Hlt) as [p Hp].
  rewrite Forall_lookup in Hunit. destruct (Hunit _ _ Hp) as [Hp0 Hp1].
  do 2 eexists. split.
  - apply (bernoulli_reset_step_spec env _ m action p);
      try assumption; lra.
  - apply bernoulli_bit.
Qed.
End ResetThenStep.

Lemma bernoulli_reset_then_step_witness :
  biased !! "mean" = Some (VSeq [0.2; 0.8]%Q)
  /\ Discrete_contains (BernoulliBanditEnv.k two_armed) 1 = true
  /\ [0.2; 0.8]%Q !! Z.to_nat 1 = Some 0.8%Q
  /\ (0 <= 0.8)%Q /\ (0.8 <= 1)%Q
  /\ exists env' reward,
    BernoulliBanditEnv.step 1
      (fst (BernoulliBanditEnv.reset_task biased two_armed))
    = (env', Ok ([0%Q], reward, true, {| info_task := biased |}))
    /\ reward
       = bernoulli 0.8
           (fst (random_sample (BernoulliBanditEnv.np_random two_armed)))
    /\ (reward = 0 \/ reward = 1)
    /\ BernoulliBanditEnv.np_random env'
       = snd (random_sample (BernoulliBanditEnv.np_random two_armed))
    /\ BernoulliBanditEnv._task env' = biased
    /\ BernoulliBanditEnv._means env' = VSeq [0.2; 0.8]%Q
    /\ BernoulliBanditEnv.k env' = BernoulliBanditEnv.k two_armed.
Proof.
  assert (biased !! "mean" = Some (VSeq [0.2; 0.8]%Q)) as H1 by reflexivity.
  assert (Discrete_contains (BernoulliBanditEnv.k two_armed) 1 = true) as H2
    by reflexivity.
  assert ([0.2; 0.8]%Q !! Z.to_nat 1 = Some 0.8%Q) as H3 by reflexivity.
  assert (0 <= 0.8)%Q as H4 by (vm_compute; discriminate).
  assert (0.8 <= 1)%Q as H5 by (vm_compute; discriminate).
  exact (conj H1 (conj H2 (conj H3 (conj H4 (conj H5
           (bernoulli_reset_then_step two_armed biased [0.2; 0.8]%Q 1 0.8%Q
              H1 H2 H3 H4 H5)))))).
Defined.

Lemma bernoulli_sampled_task_steps_witness :
  snd (BernoulliBanditEnv.sample_tasks 2 two_armed) = Ok two_armed_samples
  /\ second_sample ∈ two_armed_samples
  /\ BernoulliBanditEnv.k biased_bandit = BernoulliBanditEnv.k two_armed
  /\ Discrete_contains (BernoulliBanditEnv.k biased_bandit) 1 = true
  /\ snd (BernoulliBanditEnv.reset_task second_sample biased_bandit) = Ok tt
  /\ exists env' reward,
       BernoulliBanditEnv.step 1
         (fst (BernoulliBanditEnv.reset_task second_sample biased_bandit))
       = (env', Ok ([0%Q], reward, true, {| info_task := second_sample |}))
       /\ (reward = 0 \/ reward = 1).
Proof.
  assert (snd (BernoulliBanditEnv.sample_tasks 2 two_armed)
          = Ok two_armed_samples) as H1 by (vm_compute; reflexivity).
  assert (second_sample ∈ two_armed_samples) as H2
    by (apply (list_elem_of_lookup_2 _ 1%nat); vm_compute; reflexivity).
  assert (BernoulliBanditEnv.k biased_bandit = BernoulliBanditEnv.k two_armed)
    as H3 by reflexivity.
  assert (Discrete_contains (BernoulliBanditEnv.k biased_bandit) 1 = true)
    as H4 by reflexivity.
  exact (conj H1 (conj H2 (conj H3 (conj H4
           (bernoulli_sampled_task_steps two_armed biased_bandit 2
              two_armed_samples second_sample 1 H1 H2 H3 H4))))).
Defined.

(** ** What a bandit step changes, and how it fails *)

Lemma getitem_raise (v : value) (i : Z) (e : exn) :
  getitem v i = Raise e -> e = IndexError \/ e = TypeError.
Proof.
  destruct v as [q|l]; cbn [getitem]; [intros [= <-]; auto|].
  unfold seq_getitem.
  destruct (_ && _); [destruct (l !! _)|]; intros [= <-]; auto.
Qed.

Section BanditSteps.
Context {rng : Type} `{!RandomSource rng}.

(** X6.  A step of a Bernoulli bandit that returns was given an action of
    the action space; it returns the zero observation, a reward of 0 or 1,
    [done = True] and the active task, and changes the environment in its
    generator only, advanced by one uniform draw.  A step that raises leaves
    the environment exactly as it was, generator included, and the exception
    is the [AssertionError] if and only if the action is outside the action
    space. *)
Theorem bernoulli_step_effect (self : BernoulliBanditEnv.t rng) (action : Z) :
  match BernoulliBanditEnv.step action self with
  | (self', Ok (obs, reward, done, info)) =>
      Discrete_contains (BernoulliBanditEnv.k self) action = true
      /\ obs = [0%Q]
      /\ (reward = 0 \/ reward = 1)
      /\ done = true
      /\ info_task info = BernoulliBanditEnv._task self
      /\ self' = BernoulliBanditEnv.mk (BernoulliBanditEnv.k self)
                   (BernoulliBanditEnv._task self)
                   (BernoulliBanditEnv._means self)
                   (snd (random_sample (BernoulliBanditEnv.np_random self)))
  | (self', Raise e) =>
      self' = self
      /\ (e = AssertionError
          <-> Discrete_contains (BernoulliBanditEnv.k self) action = false)
  end.
Proof.
  unfold BernoulliBanditEnv.step, BernoulliBanditEnv.draw_reward, binomial1.
  run.
  destruct (Discrete_contains (BernoulliBanditEnv.k self) action) eqn:Hc.
  - destruct (getitem (BernoulliBanditEnv._means self) action) as [p|e] eqn:Hg.
    + destruct (Qle_bool 0 p && Qle_bool p 1).
      * destruct (random_sample (BernoulliBanditEnv.np_random self))
          as [u gen'].
        cbn [snd]. repeat split. apply bernoulli_bit.
      * split; [reflexivity|]. split; discriminate.
    + split; [reflexivity|].
      destruct (getitem_raise _ _ _ Hg) as [-> | ->]; split; discriminate.
  - split; [reflexivity|]. split; reflexivity.
Qed.

(** X7.  A step of a Gaussian bandit that returns was given an action of the
    action space and found a [std] that is not negative; it returns the zero
    observation, [done = True], the active task, and as reward the normal
    draw around the mean at the pulled arm with the environment's [std]; it
    changes the environment in its generator only.  A step that raises
    leaves the environment as it was, and raises the [AssertionError] if and
    only if the action is outside the action space.  With a mean sequence of
    at least [k] entries, a step on an action of the action space returns
    when [std] is not negative and raises [ValueError] when it is. *)
Theorem gaussian_step_effect (self : GaussianBanditEnv.t rng) (action : Z) :
  match GaussianBanditEnv.step action self with
  | (self', Ok (obs, reward, done, info)) =>
      Discrete_contains (GaussianBanditEnv.k self) action = true
      /\ (0 <= GaussianBanditEnv.std self)%Q
      /\ obs = [0%Q]
      /\ done = true
      /\ info_task info = GaussianBanditEnv._task self
      /\ exists mean,
           getitem (GaussianBanditEnv._means self) action = Ok mean
           /\ reward
              = fst (normal (GaussianBanditEnv.np_random self) mean
                            (GaussianBanditEnv.std self))
           /\ self'
              = GaussianBanditEnv.mk (GaussianBanditEnv.k self)
                  (GaussianBanditEnv.std self) (GaussianBanditEnv._task self)
                  (GaussianBanditEnv._means self)
                  (snd (normal (GaussianBanditEnv.np_random self) mean
                               (GaussianBanditEnv.std self)))
  | (self', Raise e) =>
      self' = self
      /\ (e = AssertionError
          <-> Discrete_contains (GaussianBanditEnv.k self) action = false)
  end
  /\ (forall l : list Q,
        GaussianBanditEnv._means self = VSeq l ->
        GaussianBanditEnv.k self <= Z.of_nat (length l) ->
        Discrete_contains (GaussianBanditEnv.k self) action = true ->
        ((0 <= GaussianBanditEnv.std self)%Q ->
         is_ok (snd (GaussianBanditEnv.step action self)) = true)
        /\ ((GaussianBanditEnv.std self < 0)%Q ->
            GaussianBanditEnv.step action self = (self, Raise ValueError))).
Proof.
  unfold GaussianBanditEnv.step, GaussianBanditEnv.draw_reward, np_normal.
  run.
  destruct (Discrete_contains (GaussianBanditEnv.k self) action) eqn:Hc.
  - destruct (getitem (GaussianBanditEnv._means self) action) as [p|e] eqn:Hg.
    + destruct (Qle_bool 0 (GaussianBanditEnv.std self)) eqn:Hs.
      * apply Qle_bool_iff in Hs.
        destruct (normal (GaussianBanditEnv.np_random self) p
                    (GaussianBanditEnv.std self)) as [r gen'] eqn:Hn.
        split.
        -- repeat split; try assumption. exists p. rewrite Hn.
           repeat split.
        -- intros l _ _ _. split; [reflexivity|]. intros Hneg. lra.
      * assert (~ (0 <= GaussianBanditEnv.std self)%Q) as Hneg.
        { intros Hle. apply Qle_bool_iff in Hle. congruence. }
        split.
        -- split; [reflexivity|]. split; discriminate.
        -- intros l _ _ _. split; [intros Hle; contradiction|].
           intros _. reflexivity.
    + split.
      * split; [reflexivity|].
        destruct (getitem_raise _ _ _ Hg) as [-> | ->]; split; discriminate.
      * intros l Hm Hlen _. exfalso.
        rewrite Hm in Hg. cbn [getitem] in Hg.
        apply contains_bounds in Hc.
        assert (Z.to_nat action < length l)%nat as Hlt by lia.
        destruct (lookup_lt_is_Some_2 l _ Hlt) as [x Hx].
        rewrite (seq_getitem_arm l action x) in Hg by (lia || exact Hx).
        discriminate Hg.
  - split; [|intros; discriminate]. split; [reflexivity|].
    split; reflexivity.
Qed.
End BanditSteps.

Lemma gaussian_step_effect_witness :
  GaussianBanditEnv._means plain_gaussian = VSeq (full_half 3)
  /\ GaussianBanditEnv.k plain_gaussian <= Z.of_nat (length (full_half 3))
  /\ Discrete_contains (GaussianBanditEnv.k plain_gaussian) 2 = true
  /\ (0 <= GaussianBanditEnv.std plain_gaussian)%Q
  /\ is_ok (snd (GaussianBanditEnv.step 2 plain_gaussian)) = true
  /\ GaussianBanditEnv._means negative_gaussian = VSeq (full_half 3)
  /\ GaussianBanditEnv.k negative_gaussian <= Z.of_nat (length (full_half 3))
  /\ Discrete_contains (GaussianBanditEnv.k negative_gaussian) 2 = true
  /\ (GaussianBanditEnv.std negative_gaussian < 0)%Q
  /\ GaussianBanditEnv.step 2 negative_gaussian
     = (negative_gaussian, Raise ValueError).
Proof.
  assert (GaussianBanditEnv._means plain_gaussian = VSeq (full_half 3)) as H1
    by reflexivity.
  assert (GaussianBanditEnv.k plain_gaussian
          <= Z.of_nat (length (full_half 3))) as H2
    by (vm_compute; discriminate).
  assert (Discrete_contains (GaussianBanditEnv.k plain_gaussian) 2 = true)
    as H3 by reflexivity.
  assert (0 <= GaussianBanditEnv.std plain_gaussian)%Q as H4
    by (vm_compute; discriminate).
  assert (GaussianBanditEnv._means negative_gaussian = VSeq (full_half 3))
    as H5 by reflexivity.
  assert (GaussianBanditEnv.k negative_gaussian
          <= Z.of_nat (length (full_half 3))) as H6
    by (vm_compute; discriminate).
  assert (Discrete_contains (GaussianBanditEnv.k negative_gaussian) 2 = true)
    as H7 by reflexivity.
  assert (GaussianBanditEnv.std negative_gaussian < 0)%Q as H8
    by (vm_compute; reflexivity).
  exact (conj H1 (conj H2 (conj H3 (conj H4
           (conj
              (proj1 (proj2 (gaussian_step_effect plain_gaussian 2) _
                              H1 H2 H3) H4)
              (conj H5 (conj H6 (conj H7 (conj H8
                 (proj2 (proj2 (gaussian_step_effect negative_gaussian 2) _
                                 H5 H6 H7) H8)))))))))).
Defined.

(** ** Tasks given at construction and by [reset_task] *)

Section TaskAssignment.
Context {rng : Type} `{!RandomSource rng}.
Context {data : Type} `{!MujocoEngine data}.

(** X8.  In each variant a [reset_task] with a task that has the variant's
    field wipes out whatever an earlier [reset_task] did, whether that one
    succeeded or raised: the environment and the result are those of the
    later call alone. *)
Theorem reset_task_last_complete_wins
    (b : BernoulliBanditEnv.t rng) (g : GaussianBanditEnv.t rng)
    (v : HalfCheetahVelEnv.t rng data) (d : HalfCheetahDirEnv.t rng data)
    (earlier tb tv td : Task) (m x y : value) :
  tb !! "mean" = Some m ->
  tv !! "velocity" = Some x ->
  td !! "direction" = Some y ->
  BernoulliBanditEnv.reset_task tb
    (fst (BernoulliBanditEnv.reset_task earlier b))
  = BernoulliBanditEnv.reset_task tb b
  /\ GaussianBanditEnv.reset_task tb
       (fst (GaussianBanditEnv.reset_task earlier g))
     = GaussianBanditEnv.reset_task tb g
  /\ HalfCheetahVelEnv.reset_task tv
       (fst (HalfCheetahVelEnv.reset_task earlier v))
     = HalfCheetahVelEnv.reset_task tv v
  /\ HalfCheetahDirEnv.reset_task td
       (fst (HalfCheetahDirEnv.reset_task earlier d))
     = HalfCheetahDirEnv.reset_task td d.
Proof.
  intros Hm Hx Hy.
  rewrite !bernoulli_reset_task_spec, !gaussian_reset_task_spec,
    !vel_reset_task_spec, !dir_reset_task_spec, Hm, Hx, Hy.
  destruct (earlier !! "mean"), (earlier !! "velocity"),
    (earlier !! "direction"); repeat split.
Qed.

(** X9.  A bandit constructed with a task that has no ["mean"] takes [k]
    means of 0.5: a step on the new bandit returns for every action of the
    action space, with the Bernoulli draw for 0.5 as reward and the task of
    the construction in the info dictionary.  The same task given to
    [reset_task] raises [KeyError]. *)
Theorem bernoulli_init_defaults (k : Z) (task : Task) (entropy action : Z) :
  task !! "mean" = None ->
  Discrete_contains k action = true ->
  BernoulliBanditEnv._means (BernoulliBanditEnv.__init__ k task entropy)
  = VSeq (replicate (Z.to_nat k) (1 # 2)%Q)
  /\ (exists env',
        BernoulliBanditEnv.step action
          (BernoulliBanditEnv.__init__ k task entropy)
        = (env',
           Ok ([0%Q],
               bernoulli (1 # 2) (fst (random_sample (seed_rng entropy))),
               true, {| info_task := task |})))
  /\ snd (BernoulliBanditEnv.reset_task task
            (BernoulliBanditEnv.__init__ k task entropy))
     = Raise (KeyError "mean").
Proof.
  intros Hm Hc. apply contains_bounds in Hc as Hb.
  assert (BernoulliBanditEnv._means
            (BernoulliBanditEnv.__init__ k task entropy)
          = VSeq (replicate (Z.to_nat k) (1 # 2)%Q)) as Hmeans.
  { unfold BernoulliBanditEnv.__init__, BernoulliBanditEnv.seed, dict_get.
    cbn. rewrite Hm. reflexivity. }
  split; [exact Hmeans|]. split.
  - eexists.
    rewrite (bernoulli_step_spec _ action (replicate (Z.to_nat k) (1 # 2)%Q)
               (1 # 2)%Q); try assumption; try reflexivity.
    apply seq_getitem_arm; [lia|].
    apply lookup_replicate_2. lia.
  - rewrite bernoulli_reset_task_spec, Hm. reflexivity.
Qed.

(** X10.  The velocity environment constructed with a bare float as task is
    the one constructed with the dictionary binding ["velocity"] to that
    float, and its goal velocity is the float.  Constructed with a
    dictionary without ["velocity"] it keeps the dictionary as task and
    takes the goal velocity 0.0, where [reset_task] with the same dictionary
    raises [KeyError]; likewise the direction environment takes the goal
    direction 1. *)
Theorem locomotion_init_task_forms (x low high : Q)
    (kwargs : HalfCheetahKwargs) (entropy : Z) (tv td : Task) :
  tv !! "velocity" = None ->
  td !! "direction" = None ->
  let of_float : HalfCheetahVelEnv.t rng data :=
    HalfCheetahVelEnv.__init__ (TaskFloat x) low high kwargs entropy in
  let of_dict : HalfCheetahVelEnv.t rng data :=
    HalfCheetahVelEnv.__init__ (TaskDict tv) low high kwargs entropy in
  let dir : HalfCheetahDirEnv.t rng data :=
    HalfCheetahDirEnv.__init__ td entropy in
  of_float
  = HalfCheetahVelEnv.__init__ (TaskDict {[ "velocity" := VNum x ]})
      low high kwargs entropy
  /\ HalfCheetahVelEnv._goal_vel of_float = VNum x
  /\ HalfCheetahVelEnv._task of_dict = tv
  /\ HalfCheetahVelEnv._goal_vel of_dict = VNum 0.0%Q
  /\ snd (HalfCheetahVelEnv.reset_task tv of_dict)
     = Raise (KeyError "velocity")
  /\ HalfCheetahDirEnv._task dir = td
  /\ HalfCheetahDirEnv._goal_dir dir = VNum 1%Q
  /\ snd (HalfCheetahDirEnv.reset_task td dir)
     = Raise (KeyError "direction").
Proof.
  intros Hv Hd of_float of_dict dir. subst of_float of_dict dir.
  rewrite vel_reset_task_spec, dir_reset_task_spec, Hv, Hd.
  unfold HalfCheetahVelEnv.__init__, HalfCheetahDirEnv.__init__, dict_get.
  cbn [HalfCheetahVelEnv._goal_vel HalfCheetahVelEnv._task
       HalfCheetahDirEnv._goal_dir HalfCheetahDirEnv._task snd].
  rewrite Hv, Hd, lookup_singleton_eq. repeat split.
Qed.

(** X11.  Every task that [sample_tasks] of a locomotion environment
    returns is complete: [reset_task] accepts it on any environment of the
    variant, and the goal it sets is a number, between the sampler's bounds
    in the velocity variant (bounds in order) and -1 or 1 in the direction
    variant. *)
Theorem locomotion_sampled_task_resets
    (v env_v : HalfCheetahVelEnv.t rng data)
    (d env_d : HalfCheetahDirEnv.t rng data)
    (n : Z) (tasks_v tasks_d : list Task) (tv td : Task) :
  (HalfCheetahVelEnv.low v <= HalfCheetahVelEnv.high v)%Q ->
  snd (HalfCheetahVelEnv.sample_tasks n v) = Ok tasks_v ->
  tv ∈ tasks_v ->
  snd (HalfCheetahDirEnv.sample_tasks n d) = Ok tasks_d ->
  td ∈ tasks_d ->
  (exists x : Q,
     HalfCheetahVelEnv.reset_task tv env_v
     = (HalfCheetahVelEnv.mk (HalfCheetahVelEnv.super env_v)
          (HalfCheetahVelEnv.low env_v) (HalfCheetahVelEnv.high env_v)
          tv (VNum x), Ok tt)
     /\ (HalfCheetahVelEnv.low v <= x)%Q
     /\ (x <= HalfCheetahVelEnv.high v)%Q)
  /\ (exists y : Q,
     HalfCheetahDirEnv.reset_task td env_d
     = (HalfCheetahDirEnv.mk (HalfCheetahDirEnv.super env_d) td (VNum y),
        Ok tt)
     /\ (y = inject_Z (-1) \/ y = inject_Z 1)).
Proof.
  intros Hlh Hsv Hinv Hsd Hind. split.
  - unfold HalfCheetahVelEnv.sample_tasks in Hsv.
    destruct (uniform _ _ _ n) as [[vs gen']|e] eqn:Eu; [|discriminate Hsv].
    cbn [snd] in Hsv. injection Hsv as <-.
    pose proof (uniform_ok_dims _ _ _ _ _ _ Eu) as Hn.
    destruct (uniform_shape
                (HalfCheetahEnv.np_random (HalfCheetahVelEnv.super v))
                _ _ n Hn Hlh) as (vs' & gen'' & Eu' & _ & Hf).
    rewrite Eu in Eu'. injection Eu' as <- <-.
    apply velocity_tasks_shape in Hf. rewrite Forall_forall in Hf.
    destruct (Hf tv Hinv) as (x & -> & Hlo & Hhi & _).
    exists x. rewrite vel_reset_task_spec, lookup_singleton_eq. auto.
  - unfold HalfCheetahDirEnv.sample_tasks in Hsd.
    destruct (binomial1_n _ _ n) as [[bs gen']|e] eqn:Eb; [|discriminate Hsd].
    cbn [snd] in Hsd. injection Hsd as <-.
    pose proof (binomial_ok_dims _ _ _ _ _ Eb) as Hn.
    destruct (binomial_half_shape
                (HalfCheetahEnv.np_random (HalfCheetahDirEnv.super d)) n Hn)
      as (bs' & gen'' & Eb' & _ & Hf).
    rewrite Eb in Eb'. injection Eb' as <- <-.
    apply direction_tasks_shape in Hf. rewrite Forall_forall in Hf.
    destruct (Hf td Hind) as [-> | ->].
    + exists (inject_Z (-1)).
      rewrite dir_reset_task_spec, lookup_singleton_eq. auto.
    + exists (inject_Z 1).
      rewrite dir_reset_task_spec, lookup_singleton_eq. auto.
Qed.
End TaskAssignment.

Lemma reset_task_last_complete_wins_witness :
  biased !! "mean" = Some (VSeq [0.2; 0.8]%Q)
  /\ fast !! "velocity" = Some (VNum 1.5%Q)
  /\ backward !! "direction" = Some (VNum (-1)%Q)
  /\ BernoulliBanditEnv.reset_task biased
       (fst (BernoulliBanditEnv.reset_task ∅ two_armed))
     = BernoulliBanditEnv.reset_task biased two_armed
  /\ HalfCheetahVelEnv.reset_task fast
       (fst (HalfCheetahVelEnv.reset_task ∅ cheetah_vel))
     = HalfCheetahVelEnv.reset_task fast cheetah_vel
  /\ HalfCheetahDirEnv.reset_task backward
       (fst (HalfCheetahDirEnv.reset_task ∅ cheetah_dir))
     = HalfCheetahDirEnv.reset_task backward cheetah_dir.
Proof.
  assert (biased !! "mean" = Some (VSeq [0.2; 0.8]%Q)) as H1 by reflexivity.
  assert (fast !! "velocity" = Some (VNum 1.5%Q)) as H2 by reflexivity.
  assert (backward !! "direction" = Some (VNum (-1)%Q)) as H3 by reflexivity.
  destruct (reset_task_last_complete_wins two_armed plain_gaussian
              cheetah_vel cheetah_dir ∅ biased fast backward _ _ _ H1 H2 H3)
    as (Eb & _ & Ev & Ed).
  exact (conj H1 (conj H2 (conj H3 (conj Eb (conj Ev Ed))))).
Defined.

Lemma bernoulli_init_defaults_witness :
  (∅ : Task) !! "mean" = None
  /\ Discrete_contains 2 1 = true
  /\ BernoulliBanditEnv._means two_armed = VSeq (replicate (Z.to_nat 2) (1 # 2)%Q)
  /\ snd (BernoulliBanditEnv.reset_task ∅ two_armed) = Raise (KeyError "mean").
Proof.
  assert ((∅ : Task) !! "mean" = None) as H1 by reflexivity.
  assert (Discrete_contains 2 1 = true) as H2 by reflexivity.
  destruct (bernoulli_init_defaults (rng := Z) 2 ∅ 42 1 H1 H2)
    as (Em & _ & Er).
  exact (conj H1 (conj H2 (conj Em Er))).
Defined.

Lemma locomotion_init_task_forms_witness :
  (∅ : Task) !! "velocity" = None
  /\ (∅ : Task) !! "direction" = None
  /\ cheetah_vel_float
     = HalfCheetahVelEnv.__init__ (TaskDict fast) 0.0 2.0 no_kwargs 11
  /\ HalfCheetahVelEnv._goal_vel cheetah_vel_float = VNum 1.5%Q
  /\ HalfCheetahDirEnv._goal_dir cheetah_dir = VNum 1%Q
  /\ snd (HalfCheetahDirEnv.reset_task ∅ cheetah_dir)
     = Raise (KeyError "direction").
Proof.
  assert ((∅ : Task) !! "velocity" = None) as H1 by reflexivity.
  assert ((∅ : Task) !! "direction" = None) as H2 by reflexivity.
  destruct (locomotion_init_task_forms (rng := Z) (data := Kinematic.data)
              1.5 0.0 2.0 no_kwargs 11 ∅ ∅ H1 H2)
    as (Ef & Eg & _ & _ & _ & _).
  destruct (locomotion_init_task_forms (rng := Z) (data := Kinematic.data)
              1.5 0.0 2.0 no_kwargs 13 ∅ ∅ H1 H2)
    as (_ & _ & _ & _ & _ & _ & Ed & Er).
  exact (conj H1 (conj H2 (conj Ef (conj Eg (conj Ed Er))))).
Defined.

Lemma locomotion_sampled_task_resets_witness :
  (HalfCheetahVelEnv.low cheetah_vel <= HalfCheetahVelEnv.high cheetah_vel)%Q
  /\ snd (HalfCheetahVelEnv.sample_tasks 3 cheetah_vel)
     = Ok cheetah_vel_samples
  /\ first_vel_sample ∈ cheetah_vel_samples
  /\ snd (HalfCheetahDirEnv.sample_tasks 3 cheetah_dir)
     = Ok cheetah_dir_samples
  /\ first_dir_sample ∈ cheetah_dir_samples
  /\ (exists x : Q,
     HalfCheetahVelEnv.reset_task first_vel_sample cheetah_vel_float
     = (HalfCheetahVelEnv.mk (HalfCheetahVelEnv.super cheetah_vel_float)
          (HalfCheetahVelEnv.low cheetah_vel_float)
          (HalfCheetahVelEnv.high cheetah_vel_float)
          first_vel_sample (VNum x), Ok tt)
     /\ (HalfCheetahVelEnv.low cheetah_vel <= x)%Q
     /\ (x <= HalfCheetahVelEnv.high cheetah_vel)%Q)
  /\ (exists y : Q,
     HalfCheetahDirEnv.reset_task first_dir_sample cheetah_back
     = (HalfCheetahDirEnv.mk (HalfCheetahDirEnv.super cheetah_back)
          first_dir_sample (VNum y), Ok tt)
     /\ (y = inject_Z (-1) \/ y = inject_Z 1)).
Proof.
  assert (HalfCheetahVelEnv.low cheetah_vel
          <= HalfCheetahVelEnv.high cheetah_vel)%Q as H1
    by (vm_compute; discriminate).
  assert (snd (HalfCheetahVelEnv.sample_tasks 3 cheetah_vel)
          = Ok cheetah_vel_samples) as H2 by (vm_compute; reflexivity).
  assert (first_vel_sample ∈ cheetah_vel_samples) as H3
    by (apply (list_elem_of_lookup_2 _ 0%nat); vm_compute; reflexivity).
  assert (snd (HalfCheetahDirEnv.sample_tasks 3 cheetah_dir)
          = Ok cheetah_dir_samples) as H4 by (vm_compute; reflexivity).
  assert (first_dir_sample ∈ cheetah_dir_samples) as H5
    by (apply (list_elem_of_lookup_2 _ 0%nat); vm_compute; reflexivity).
  exact (conj H1 (conj H2 (conj H3 (conj H4 (conj H5
           (locomotion_sampled_task_resets cheetah_vel cheetah_vel_float
              cheetah_dir cheetah_back 3 cheetah_vel_samples
              cheetah_dir_samples first_vel_sample first_dir_sample
              H1 H2 H3 H4 H5)))))).
Defined.

(** ** Observation and reward of a locomotion step *)





Section Observation.
Context {rng : Type} `{!RandomSource rng}.
Context {data : Type} `{!MujocoEngine data}.

(** X12.  The observation is the position vector without its first
    coordinate, then the velocity vector, then the centre of mass of the
    torso: position [i+1] sits at index [i], the first velocity right after
    the last position, and the root position nowhere.  With nine positions,
    nine velocities and three centre-of-mass coordinates its length is that
    of the declared observation space. *)
Theorem get_obs_layout (self : HalfCheetahEnv.t rng data) (i : nat) :
  let d := HalfCheetahEnv.data_ self in
  let obs := HalfCheetahEnv._get_obs self in
  length obs
  = (length (qpos d) - 1 + length (qvel d)
     + length (get_body_com d "torso"))%nat
  /\ ((i < length (qpos d) - 1)%nat -> obs !! i = qpos d !! S i)
  /\ ((i < length (qvel d))%nat ->
      obs !! (length (qpos d) - 1 + i)%nat = qvel d !! i)
  /\ obs !! (length (qpos d) - 1 + length (qvel d) + i)%nat
     = get_body_com d "torso" !! i
  /\ (length (qpos d) = 9%nat -> length (qvel d) = 9%nat ->
      length (get_body_com d "torso") = 3%nat ->
      length obs = observation_shape).
Proof.
  intros d obs. subst obs. unfold HalfCheetahEnv._get_obs. fold d.
  assert (length (drop 1 (qpos d)) = (length (qpos d) - 1)%nat) as Hd
    by apply length_drop.
  split; [rewrite !length_app, Hd; lia|].
  split; [intros Hi; rewrite lookup_app_l by lia;
          rewrite lookup_drop; reflexivity|].
  split; [intros Hi; rewrite lookup_app_r by lia;
          rewrite Hd, lookup_app_l by lia; f_equal; lia|].
  split.
  - rewrite lookup_app_r by lia. rewrite lookup_app_r by lia.
    f_equal. lia.
  - intros Hq Hv Hc. rewrite !length_app, Hd, Hq, Hv, Hc. reflexivity.
Qed.
End Observation.

Lemma get_obs_layout_witness :
  let self := HalfCheetahVelEnv.super cheetah_vel in
  (2 < length (qpos (HalfCheetahEnv.data_ self)) - 1)%nat
  /\ length (qpos (HalfCheetahEnv.data_ self)) = 9%nat
  /\ length (qvel (HalfCheetahEnv.data_ self)) = 9%nat
  /\ length (get_body_com (HalfCheetahEnv.data_ self) "torso") = 3%nat
  /\ HalfCheetahEnv._get_obs self !! 2%nat
     = qpos (HalfCheetahEnv.data_ self) !! 3%nat
  /\ length (HalfCheetahEnv._get_obs self) = observation_shape.
Proof.
  intros self.
  assert (2 < length (qpos (HalfCheetahEnv.data_ self)) - 1)%nat as H1
    by (vm_compute; lia).
  assert (length (qpos (HalfCheetahEnv.data_ self)) = 9%nat) as H2
    by reflexivity.
  assert (length (qvel (HalfCheetahEnv.data_ self)) = 9%nat) as H3
    by reflexivity.
  assert (length (get_body_com (HalfCheetahEnv.data_ self) "torso") = 3%nat)
    as H4 by reflexivity.
  destruct (get_obs_layout self 2) as (_ & Hp & _ & _ & Hl).
  exact (conj H1 (conj H2 (conj H3 (conj H4
           (conj (Hp H1) (Hl H2 H3 H4)))))).
Defined.



Section LocomotionStepShape.
Context {rng : Type} `{!RandomSource rng}.
Context {data : Type} `{!MujocoEngine data}.



End LocomotionStepShape.

Section LocomotionStepFrame.
Context {rng : Type} `{!RandomSource rng}.
Context {data : Type} `{!MujocoEngine data}.

(** The environment a velocity step leaves: the one before it, or that one
    with the simulator state the engine returned. *)
Lemma vel_step_state (self : HalfCheetahVelEnv.t rng data) (action : list Q) :
  fst (HalfCheetahVelEnv.step action self) = self
  \/ exists d',
       fst (HalfCheetahVelEnv.step action self)
       = HalfCheetahVelEnv.mk
           (HalfCheetahEnv.set_data d' (HalfCheetahVelEnv.super self))
           (HalfCheetahVelEnv.low self) (HalfCheetahVelEnv.high self)
           (HalfCheetahVelEnv._task self) (HalfCheetahVelEnv._goal_vel self).
Proof.
  unfold HalfCheetahVelEnv.step, HalfCheetahVelEnv.xpos,
    HalfCheetahVelEnv.on_super, HalfCheetahEnv.simulate. run.
  destruct (seq_getitem _ 0); [|left; reflexivity].
  destruct (do_simulation _ _ _) as [d'|]; [|left; destruct self; reflexivity].
  right. exists d'.
  destruct (seq_getitem _ 0); [|reflexivity].
  destruct (as_num _); reflexivity.
Qed.

Lemma dir_step_state (self : HalfCheetahDirEnv.t rng data) (action : list Q) :
  fst (HalfCheetahDirEnv.step action self) = self
  \/ exists d',
       fst (HalfCheetahDirEnv.step action self)
       = HalfCheetahDirEnv.mk
           (HalfCheetahEnv.set_data d' (HalfCheetahDirEnv.super self))
           (HalfCheetahDirEnv._task self) (HalfCheetahDirEnv._goal_dir self).
Proof.
  unfold HalfCheetahDirEnv.step, HalfCheetahDirEnv.xpos,
    HalfCheetahDirEnv.on_super, HalfCheetahEnv.simulate. run.
  destruct (seq_getitem _ 0); [|left; reflexivity].
  destruct (do_simulation _ _ _) as [d'|]; [|left; destruct self; reflexivity].
  right. exists d'.
  destruct (seq_getitem _ 0); [|reflexivity].
  destruct (as_num _); reflexivity.
Qed.

(** X14.  A locomotion step, returning or raising, changes nothing of the
    environment but the simulator state: task, goal, bounds, stored weights,
    frame skip and generator stay, so [sample_tasks] after a step returns
    what it would have returned before it.  When the engine rejects the
    action, the step raises the engine's exception and the environment is
    exactly as before. *)
Theorem locomotion_step_frame (v : HalfCheetahVelEnv.t rng data)
    (d : HalfCheetahDirEnv.t rng data) (action : list Q) (n : Z) :
  let v' := fst (HalfCheetahVelEnv.step action v) in
  let d' := fst (HalfCheetahDirEnv.step action d) in
  (HalfCheetahVelEnv.low v' = HalfCheetahVelEnv.low v
   /\ HalfCheetahVelEnv.high v' = HalfCheetahVelEnv.high v
   /\ HalfCheetahVelEnv._task v' = HalfCheetahVelEnv._task v
   /\ HalfCheetahVelEnv._goal_vel v' = HalfCheetahVelEnv._goal_vel v
   /\ HalfCheetahEnv.set_data
        (HalfCheetahEnv.data_ (HalfCheetahVelEnv.super v))
        (HalfCheetahVelEnv.super v')
      = HalfCheetahVelEnv.super v
   /\ snd (HalfCheetahVelEnv.sample_tasks n v')
      = snd (HalfCheetahVelEnv.sample_tasks n v))
  /\ (HalfCheetahDirEnv._task d' = HalfCheetahDirEnv._task d
      /\ HalfCheetahDirEnv._goal_dir d' = HalfCheetahDirEnv._goal_dir d
      /\ HalfCheetahEnv.set_data
           (HalfCheetahEnv.data_ (HalfCheetahDirEnv.super d))
           (HalfCheetahDirEnv.super d')
         = HalfCheetahDirEnv.super d
      /\ snd (HalfCheetahDirEnv.sample_tasks n d')
         = snd (HalfCheetahDirEnv.sample_tasks n d))
  /\ (forall e x0,
        qpos (HalfCheetahEnv.data_ (HalfCheetahVelEnv.super v)) !! 0%nat
          = Some x0 ->
        do_simulation (HalfCheetahEnv.data_ (HalfCheetahVelEnv.super v))
          action (HalfCheetahEnv.frame_skip (HalfCheetahVelEnv.super v))
          = Raise e ->
        HalfCheetahVelEnv.step action v = (v, Raise e))
  /\ (forall e y0,
        qpos (HalfCheetahEnv.data_ (HalfCheetahDirEnv.super d)) !! 0%nat
          = Some y0 ->
        do_simulation (HalfCheetahEnv.data_ (HalfCheetahDirEnv.super d))
          action (HalfCheetahEnv.frame_skip (HalfCheetahDirEnv.super d))
          = Raise e ->
        HalfCheetahDirEnv.step action d = (d, Raise e)).
Proof.
  intros v' d'. subst v' d'. split; [|split; [|split]].
  - assert (forall w : HalfCheetahVelEnv.t rng data,
              w = v
              \/ (exists s, w = HalfCheetahVelEnv.mk
                    (HalfCheetahEnv.set_data s (HalfCheetahVelEnv.super v))
                    (HalfCheetahVelEnv.low v) (HalfCheetahVelEnv.high v)
                    (HalfCheetahVelEnv._task v)
                    (HalfCheetahVelEnv._goal_vel v)) ->
              HalfCheetahVelEnv.low w = HalfCheetahVelEnv.low v
              /\ HalfCheetahVelEnv.high w = HalfCheetahVelEnv.high v
              /\ HalfCheetahVelEnv._task w = HalfCheetahVelEnv._task v
              /\ HalfCheetahVelEnv._goal_vel w = HalfCheetahVelEnv._goal_vel v
              /\ HalfCheetahEnv.set_data
                   (HalfCheetahEnv.data_ (HalfCheetahVelEnv.super v))
                   (HalfCheetahVelEnv.super w)
                 = HalfCheetahVelEnv.super v
              /\ snd (HalfCheetahVelEnv.sample_tasks n w)
                 = snd (HalfCheetahVelEnv.sample_tasks n v)) as Hframe.
    { intros w [-> | [s ->]].
      - repeat split. destruct v as [[] ? ? ? ?]. reflexivity.
      - repeat split.
        + destruct v as [[] ? ? ? ?]. reflexivity.
        + apply vel_sample_tasks_congr; reflexivity. }
    apply Hframe, vel_step_state.
  - assert (forall w : HalfCheetahDirEnv.t rng data,
              w = d
              \/ (exists s, w = HalfCheetahDirEnv.mk
                    (HalfCheetahEnv.set_data s (HalfCheetahDirEnv.super d))
                    (HalfCheetahDirEnv._task d)
                    (HalfCheetahDirEnv._goal_dir d)) ->
              HalfCheetahDirEnv._task w = HalfCheetahDirEnv._task d
              /\ HalfCheetahDirEnv._goal_dir w = HalfCheetahDirEnv._goal_dir d
              /\ HalfCheetahEnv.set_data
                   (HalfCheetahEnv.data_ (HalfCheetahDirEnv.super d))
                   (HalfCheetahDirEnv.super w)
                 = HalfCheetahDirEnv.super d
              /\ snd (HalfCheetahDirEnv.sample_tasks n w)
                 = snd (HalfCheetahDirEnv.sample_tasks n d)) as Hframe.
    { intros w [-> | [s ->]].
      - repeat split. destruct d as [[] ? ?]. reflexivity.
      - repeat split.
        + destruct d as [[] ? ?]. reflexivity.
        + apply dir_sample_tasks_congr; reflexivity. }
    apply Hframe, dir_step_state.
  - intros e x0 H0 Hs. apply (seq_getitem_lookup _ 0%nat) in H0.
    change (Z.of_nat 0) with 0 in H0.
    unfold HalfCheetahVelEnv.step, HalfCheetahVelEnv.xpos,
      HalfCheetahVelEnv.on_super, HalfCheetahEnv.simulate. run.
    rewrite H0, Hs. destruct v. reflexivity.
  - intros e y0 H0 Hs. apply (seq_getitem_lookup _ 0%nat) in H0.
    change (Z.of_nat 0) with 0 in H0.
    unfold HalfCheetahDirEnv.step, HalfCheetahDirEnv.xpos,
      HalfCheetahDirEnv.on_super, HalfCheetahEnv.simulate. run.
    rewrite H0, Hs. destruct d. reflexivity.
Qed.
End LocomotionStepFrame.

(** The kinematic engine takes six controls: five are rejected. *)
Lemma locomotion_step_frame_witness :
  qpos (HalfCheetahEnv.data_ (HalfCheetahVelEnv.super cheetah_vel)) !! 0%nat
    = Some 0%Q
  /\ do_simulation (HalfCheetahEnv.data_ (HalfCheetahVelEnv.super cheetah_vel))
       [1; 0; 0; 0; 0]%Q
       (HalfCheetahEnv.frame_skip (HalfCheetahVelEnv.super cheetah_vel))
     = Raise ValueError
  /\ HalfCheetahVelEnv.step [1; 0; 0; 0; 0]%Q cheetah_vel
     = (cheetah_vel, Raise ValueError)
  /\ snd (HalfCheetahVelEnv.sample_tasks 3
            (fst (HalfCheetahVelEnv.step unit_action cheetah_vel)))
     = snd (HalfCheetahVelEnv.sample_tasks 3 cheetah_vel).
Proof.
  assert (qpos (HalfCheetahEnv.data_ (HalfCheetahVelEnv.super cheetah_vel))
            !! 0%nat = Some 0%Q) as H1 by reflexivity.
  assert (do_simulation
            (HalfCheetahEnv.data_ (HalfCheetahVelEnv.super cheetah_vel))
            [1; 0; 0; 0; 0]%Q
            (HalfCheetahEnv.frame_skip (HalfCheetahVelEnv.super cheetah_vel))
          = Raise ValueError) as H2 by reflexivity.
  destruct (locomotion_step_frame cheetah_vel cheetah_dir [1; 0; 0; 0; 0]%Q 3)
    as (_ & _ & Hrej & _).
  destruct (locomotion_step_frame cheetah_vel cheetah_dir unit_action 3)
    as ((_ & _ & _ & _ & _ & Hsame) & _).
  exact (conj H1 (conj H2 (conj (Hrej _ _ H1 H2) Hsame))).
Defined.

(** ** Where the sampler's environment comes from *)

Section SamplerEnvironment.
Variable Policy : Type.

(** X15.  A sampler constructed on an environment passed in never consults
    [gym.make].  The construction raises exactly when the environment has a
    [seed] attribute and its [reset(seed=...)] raises: the exception is that
    of the reset and the environment is left as it was, not closed.
    Otherwise it returns a sampler whose own [closed] flag is [False] and
    whose environment has the close as the last call made on it.  Calling a
    [make_env] object is [gym.make] on its name and keyword arguments,
    whatever seed it was given; a sampler constructed without an environment
    is the one constructed on the environment such a call returns, and fails
    with [gym.make], with no environment, when that fails. *)
Theorem sampler_env_acquisition
    (gym_make other_make : string -> Task -> result GymEnv)
    (env_name : string) (env_kwargs : Task) (batch_size : Z) (policy : Policy)
    (seed maker_seed : option Z) (env : GymEnv) :
  Sampler.__init__ Policy gym_make env_name env_kwargs batch_size policy seed
    (Some env)
  = Sampler.__init__ Policy other_make env_name env_kwargs batch_size policy
      seed (Some env)
  /\ match (if has_seed_attr env then reset_seed_raises env else None) with
     | Some x =>
         Sampler.__init__ Policy gym_make env_name env_kwargs batch_size
           policy seed (Some env)
         = (Some env, Raise x)
     | None =>
         exists self,
           Sampler.__init__ Policy gym_make env_name env_kwargs batch_size
             policy seed (Some env)
           = (Some (Sampler.env Policy self), Ok self)
           /\ Sampler.closed Policy self = false
           /\ last (env_calls (Sampler.env Policy self)) = Some CallClose
           /\ Sampler.batch_size Policy self = batch_size
           /\ Sampler.policy Policy self = policy
     end
  /\ make_env.__call__ gym_make
       (make_env.__init__ env_name env_kwargs maker_seed)
     = gym_make env_name env_kwargs
  /\ (make_env.__call__ gym_make
        (make_env.__init__ env_name env_kwargs maker_seed) = Ok env ->
      Sampler.__init__ Policy gym_make env_name env_kwargs batch_size policy
        seed None
      = Sampler.__init__ Policy gym_make env_name env_kwargs batch_size policy
          seed (Some env))
  /\ (forall x,
        gym_make env_name env_kwargs = Raise x ->
        Sampler.__init__ Policy gym_make env_name env_kwargs batch_size policy
          seed None = (None, Raise x)).
Proof.
  split; [reflexivity|]. split.
  { rewrite sampler_init_spec.
    destruct env as [[] [x|] calls]; cbn; try reflexivity;
      lazymatch goal with
      | |- exists self, (_, Ok ?smp) = _ /\ _ => exists smp
      end;
      (split; [reflexivity|]); cbn; repeat split;
      rewrite last_app; reflexivity. }
  split; [reflexivity|]. split.
  - unfold make_env.__call__, make_env.__init__, Sampler.__init__.
    cbn [make_env.env_name make_env.env_kwargs]. intros ->. reflexivity.
  - intros x Hx. unfold Sampler.__init__. rewrite Hx. reflexivity.
Qed.
End SamplerEnvironment.

Lemma sampler_env_acquisition_witness :
  make_env.__call__ registry (make_env.__init__ "Seedable-v0" ∅ (Some 3))
    = Ok seedable
  /\ registry "no-such-env" ∅ = Raise MakeError
  /\ Sampler.__init__ unit registry "Seedable-v0" ∅ 20 tt (Some 7) None
     = Sampler.__init__ unit registry "Seedable-v0" ∅ 20 tt (Some 7)
         (Some seedable)
  /\ Sampler.__init__ unit registry "no-such-env" ∅ 20 tt (Some 7) None
     = (None, Raise MakeError)
  /\ Sampler.__init__ unit registry "Bandit-K5-v0" ∅ 20 tt (Some 7)
       (Some bandit_object)
     = (Some bandit_object, Raise TypeError).
Proof.
  assert (make_env.__call__ registry
            (make_env.__init__ "Seedable-v0" ∅ (Some 3)) = Ok seedable)
    as H1 by reflexivity.
  assert (registry "no-such-env" ∅ = Raise MakeError) as H2 by reflexivity.
  destruct (sampler_env_acquisition unit registry registry "Seedable-v0" ∅
              20 tt (Some 7) (Some 3) seedable) as (_ & _ & _ & Hsame & _).
  destruct (sampler_env_acquisition unit registry registry "no-such-env" ∅
              20 tt (Some 7) None seedable) as (_ & _ & _ & _ & Hfail).
  destruct (sampler_env_acquisition unit registry registry "Bandit-K5-v0" ∅
              20 tt (Some 7) None bandit_object) as (_ & Hraise & _).
  exact (conj H1 (conj H2 (conj (Hsame H1) (conj (Hfail _ H2) Hraise)))).
Defined.

(** ** One generator for rewards and tasks *)

Section SharedGenerator.
Context {rng : Type} `{!RandomSource rng}.

(** X17.  A bandit draws its rewards from the generator its tasks come
    from.  After a Bernoulli step that returns, [sample_tasks] returns the
    tasks of the generator advanced by the one draw of the reward; after a
    step that raises it returns what it would have returned before the
    step. *)
Theorem bernoulli_step_shifts_task_stream (self : BernoulliBanditEnv.t rng)
    (action n : Z) :
  match snd (BernoulliBanditEnv.step action self) with
  | Ok _ =>
      snd (BernoulliBanditEnv.sample_tasks n
             (fst (BernoulliBanditEnv.step action self)))
      = snd (BernoulliBanditEnv.sample_tasks n
               (BernoulliBanditEnv.mk (BernoulliBanditEnv.k self)
                  (BernoulliBanditEnv._task self)
                  (BernoulliBanditEnv._means self)
                  (snd (random_sample (BernoulliBanditEnv.np_random self)))))
  | Raise _ =>
      snd (BernoulliBanditEnv.sample_tasks n
             (fst (BernoulliBanditEnv.step action self)))
      = snd (BernoulliBanditEnv.sample_tasks n self)
  end.
Proof.
  unfold BernoulliBanditEnv.step, BernoulliBanditEnv.draw_reward, binomial1.
  run.
  destruct (Discrete_contains (BernoulliBanditEnv.k self) action);
    [|reflexivity].
  destruct (getitem (BernoulliBanditEnv._means self) action) as [p|e];
    [|reflexivity].
  destruct (Qle_bool 0 p && Qle_bool p 1); [|reflexivity].
  destruct (random_sample (BernoulliBanditEnv.np_random self)) as [u gen'].
  reflexivity.
Qed.
End SharedGenerator.
